(** * Ambient declarations of the Token and Card documents

    The repository holds TypeScript declaration text only:
    [src/foundry/common/documents/token.mjs.d.ts] (class [BaseToken], its
    namespace and schema) followed, after a separator line, by the declaration
    of the client-side class [Card].  A declaration file has no run-time
    behaviour of its own, so the object of study is the declared surface
    itself: the development transcribes the declarations as data, member by
    member, and the properties are computed from that transcription. *)

From Stdlib Require Import String List Bool QArith DecimalString.
Import ListNotations.
Close Scope Q_scope.
Open Scope string_scope.

#[local] Set Warnings "-register-all".

(** ** Syntax of declaration files *)

Module Syntax.

(** A possibly qualified name: [documents.BaseUser] is
    [["documents"; "BaseUser"]]. *)
Definition QName := list string.

Inductive Keyword : Type :=
| KString | KNumber | KBoolean | KVoid | KNull | KUndefined | KObject.

(** A documentation comment: its text (line breaks folded into single spaces)
    and its block tags in order, each a tag name and the text after it. *)
Record Doc : Type := MkDoc {
  summary : string;
  tags : list (string * string)
}.

(** A parameter is bound to a name, or destructured as in [{ exact }]. *)
Inductive Binding : Type :=
| BName (x : string)
| BObject (xs : list string).

(** Type expressions, with the parameters of function types and the property
    signatures of object types. *)
Inductive TsType : Type :=
| TKeyword (k : Keyword)
| TStringLit (s : string)
| TNumberLit (q : Q)
| TBooleanLit (b : bool)
| TRef (n : QName) (targs : list TsType)
| TTypeof (n : QName)
| TKeyof (t : TsType)
| TIndexed (t : TsType) (i : TsType)
| TArray (t : TsType)
| TUnion (ts : list TsType)
| TFunction (ps : list Param) (ret : TsType)
| TObject (ms : list PropSig)
with Param : Type :=
| MkParam (b : Binding) (optional : bool) (t : TsType)
with PropSig : Type :=
| MkProp (doc : option Doc) (name : string) (optional : bool) (t : TsType).

Arguments TNumberLit q%_Q.

Definition param_type (p : Param) : TsType :=
  match p with MkParam _ _ t => t end.

Definition param_optional (p : Param) : bool :=
  match p with MkParam _ o _ => o end.

Definition param_binding (p : Param) : Binding :=
  match p with MkParam b _ _ => b end.

Definition prop_doc (p : PropSig) : option Doc :=
  match p with MkProp d _ _ _ => d end.

Definition prop_name (p : PropSig) : string :=
  match p with MkProp _ n _ _ => n end.

Definition prop_type (p : PropSig) : TsType :=
  match p with MkProp _ _ _ t => t end.

(** Expressions and statements: what a body, an initializer or a top-level
    statement would be made of. *)
Inductive Expr : Type :=
| EName (n : QName)
| EString (s : string)
| ENumber (q : Q)
| ECall (f : Expr) (args : list Expr)
| ENew (f : Expr) (args : list Expr).

Inductive Stmt : Type :=
| SExpr (e : Expr)
| SReturn (e : option Expr)
| SThrow (e : Expr)
| SIf (c : Expr) (thn : list Stmt) (els : list Stmt)
| SWhile (c : Expr) (body : list Stmt)
| STry (body : list Stmt) (handler : list Stmt) (finalizer : list Stmt).

Inductive MemberKind : Type :=
| Constructor | Method | Getter | Setter | Property.

(** A class member.  [m_name] keeps the [#] of a private name; a constructor is
    named ["constructor"].  [m_type] is the return type of a method or
    accessor and the type of a property.  [m_body] is the block of a method,
    accessor or constructor, [m_init] the initializer of a property. *)
Record Member : Type := MkMember {
  m_doc : option Doc;
  m_static : bool;
  m_override : bool;
  m_kind : MemberKind;
  m_name : string;
  m_params : list Param;
  m_type : option TsType;
  m_body : option (list Stmt);
  m_init : option Expr
}.

(** The [extends] clause of a class: an expression, with type arguments. *)
Record Heritage : Type := MkHeritage {
  h_expr : Expr;
  h_targs : list TsType
}.

Record ClassDecl : Type := MkClass {
  c_doc : option Doc;
  c_name : string;
  c_extends : option Heritage;
  c_members : list Member
}.

Inductive ImportClause : Type :=
| IDefault (x : string)
| INamespace (x : string)
| INamed (xs : list (bool * string)).

Record Import : Type := MkImport {
  i_type_only : bool;
  i_clause : ImportClause;
  i_from : string
}.

(** Declarations and statements of a file.  The [declare] flag records the
    [declare] modifier. *)
Inductive Decl : Type :=
| DImport (i : Import)
| DTypeAlias (doc : option Doc) (name : string) (t : TsType)
| DInterface (doc : option Doc) (name : string) (extends : list TsType)
    (ms : list PropSig)
| DClass (declare : bool) (c : ClassDecl)
| DNamespace (declare : bool) (name : string) (body : list Decl)
| DGlobal (body : list Decl)
| DFunction (declare : bool) (name : string) (ps : list Param)
    (ret : option TsType) (body : option (list Stmt))
| DVariable (declare : bool) (name : string) (t : option TsType)
    (init : option Expr)
| DExportDefault (name : string)
| DStatement (s : Stmt).

(** A source file; [f_path] is [None] when the file's own path is not
    recorded. *)
Record SourceFile : Type := MkFile {
  f_path : option string;
  f_decls : list Decl
}.

End Syntax.

Export Syntax.

(** ** Abbreviations used by the transcription *)

Definition tref (n : QName) : TsType := TRef n [].

(** [fields.X<...>], a name of the imported namespace [fields]. *)
Definition fields (x : string) (targs : list TsType) : TsType :=
  TRef ["fields"; x] targs.

Definition TTrue : TsType := TBooleanLit true.
Definition TFalse : TsType := TBooleanLit false.
Definition TString : TsType := TKeyword KString.
Definition TNumber : TsType := TKeyword KNumber.
Definition TBoolean : TsType := TKeyword KBoolean.
Definition TVoid : TsType := TKeyword KVoid.
Definition TNull : TsType := TKeyword KNull.
Definition TUndefined : TsType := TKeyword KUndefined.
Definition TObjectKw : TsType := TKeyword KObject.

(** A required property signature without a documentation comment, as in the
    option objects [{ required: true; ... }]. *)
Definition opt (name : string) (t : TsType) : PropSig :=
  MkProp None name false t.

Definition doc (s : string) (ts : list (string * string)) : option Doc :=
  Some (MkDoc s ts).

Definition defaultValue (v : string) : string * string := ("defaultValue", v).

(** A documented, required property signature: a field of a schema. *)
Definition field (s : string) (ts : list (string * string)) (name : string)
    (t : TsType) : PropSig :=
  MkProp (doc s ts) name false t.

(** A required parameter bound to a name, and an optional one. *)
Definition param (x : string) (t : TsType) : Param := MkParam (BName x) false t.
Definition param_opt (x : string) (t : TsType) : Param := MkParam (BName x) true t.

(** The double quote character, for documentation text that shows one. *)
Definition dquote : string := String (Ascii.ascii_of_nat 34) EmptyString.

(** ** [src/foundry/common/documents/token.mjs.d.ts]

    The two line comments of the source ([// eslint-disable-next-line ...] and
    [// TODO: TypeName handling.]) are not part of any declaration and are left
    out. *)

Module TokenDoc.

Definition imports : list Decl :=
  [ DImport (MkImport true (INamed [(false, "ConfiguredDocumentClass")])
      "../../../types/helperTypes.js");
    DImport (MkImport true (IDefault "Document") "../abstract/document.mjs");
    DImport (MkImport false (INamed [(true, "DocumentMetadata")])
      "../abstract/document.mjs");
    DImport (MkImport true (INamespace "CONST") "../constants.mjs");
    DImport (MkImport true (INamed [(false, "LightData"); (false, "TextureData")])
      "../data/data.mjs");
    DImport (MkImport true (INamespace "fields") "../data/fields.mjs");
    DImport (MkImport true (INamespace "documents") "./module.mjs") ].

(** [declare global { ... }] *)
Definition TokenSightData : Decl :=
  DTypeAlias None "TokenSightData"
    (TIndexed (tref ["BaseToken"; "Properties"]) (TStringLit "sight")).

Definition TokenDetectionMode : Decl :=
  DTypeAlias None "TokenDetectionMode"
    (TIndexed (TIndexed (tref ["BaseToken"; "Properties"])
                (TStringLit "detectionModes")) TNumber).

Definition TokenData : Decl :=
  DTypeAlias None "TokenData" (tref ["BaseToken"; "Properties"]).

Definition TokenBarData : Decl :=
  DTypeAlias None "TokenBarData"
    (TIndexed (tref ["BaseToken"; "Properties"]) (TStringLit "bar1")).

Definition global : Decl :=
  DGlobal [TokenSightData; TokenDetectionMode; TokenData; TokenBarData].

(** [interface BaseToken extends BaseToken.Properties {}] *)
Definition BaseToken_interface : Decl :=
  DInterface
    (doc "The base Token model definition which defines common behavior of an Token document between both client and server." [])
    "BaseToken" [tref ["BaseToken"; "Properties"]] [].

(** *** Members of [declare class BaseToken] *)

Definition constructor : Member :=
  {| m_doc := None; m_static := false; m_override := false;
     m_kind := Constructor; m_name := "constructor";
     m_params := [ param "data" (tref ["BaseToken"; "ConstructorData"]);
                   param_opt "context" (tref ["DocumentConstructionContext"]) ];
     m_type := None; m_body := None; m_init := None |}.

Definition metadata : Member :=
  {| m_doc := None; m_static := true; m_override := true;
     m_kind := Property; m_name := "metadata"; m_params := [];
     m_type := Some (TRef ["Readonly"] [tref ["BaseToken"; "Metadata"]]);
     m_body := None; m_init := None |}.

Definition defineSchema : Member :=
  {| m_doc := None; m_static := true; m_override := true;
     m_kind := Method; m_name := "defineSchema"; m_params := [];
     m_type := Some (tref ["BaseToken"; "Schema"]);
     m_body := None; m_init := None |}.

Definition validateDetectionModes : Member :=
  {| m_doc := doc "Validate the structure of the detection modes array"
       [ ("param", "modes - Configured detection modes");
         ("throws", "An error if the array is invalid") ];
     m_static := true; m_override := false;
     m_kind := Method; m_name := "#validateDetectionModes";
     m_params := [ param "modes" (TArray (tref ["TokenDetectionMode"])) ];
     m_type := Some TVoid; m_body := None; m_init := None |}.

Definition DEFAULT_ICON : Member :=
  {| m_doc := doc "The default icon used for newly created Token documents"
       [ defaultValue "`CONST.DEFAULT_TOKEN`" ];
     m_static := true; m_override := false;
     m_kind := Property; m_name := "DEFAULT_ICON"; m_params := [];
     m_type := Some TString; m_body := None; m_init := None |}.

Definition canUpdate : Member :=
  {| m_doc := doc "Is a user able to update an existing Token?"
       [ ("internal", EmptyString) ];
     m_static := true; m_override := false;
     m_kind := Method; m_name := "#canUpdate";
     m_params := [ param "user" (tref ["documents"; "BaseUser"]);
                   param "doc" (tref ["BaseToken"]);
                   param "data" (tref ["BaseToken"; "UpdateData"]) ];
     m_type := Some TBoolean; m_body := None; m_init := None |}.

Definition testUserPermission : Member :=
  {| m_doc := None; m_static := false; m_override := true;
     m_kind := Method; m_name := "testUserPermission";
     m_params :=
       [ param "user" (tref ["documents"; "BaseUser"]);
         param "permission"
           (TUnion [ TKeyof (TTypeof ["CONST"; "DOCUMENT_OWNERSHIP_LEVELS"]);
                     tref ["CONST"; "DOCUMENT_OWNERSHIP_LEVELS"] ]);
         MkParam (BObject ["exact"]) true
           (TObject
              [ MkProp (doc "Require the exact permission level requested?"
                          [ defaultValue "`false`" ])
                  "exact" true TBoolean ]) ];
     m_type := Some TBoolean; m_body := None; m_init := None |}.

Definition cleanData : Member :=
  {| m_doc := None; m_static := true; m_override := true;
     m_kind := Method; m_name := "cleanData";
     m_params :=
       [ param_opt "source" (TUnion [TObjectKw; TUndefined]);
         param_opt "options"
           (TUnion [tref ["fields"; "DataField"; "CleanOptions"]; TUndefined]) ];
     m_type := Some TObjectKw; m_body := None; m_init := None |}.

Definition migrateData : Member :=
  {| m_doc := None; m_static := true; m_override := true;
     m_kind := Method; m_name := "migrateData";
     m_params := [ param "source" TObjectKw ];
     m_type := Some TObjectKw; m_body := None; m_init := None |}.

Definition shimData : Member :=
  {| m_doc := None; m_static := true; m_override := true;
     m_kind := Method; m_name := "shimData";
     m_params :=
       [ param "data" TObjectKw;
         MkParam (BObject ["embedded"]) true
           (TObject
              [ MkProp (doc "Apply shims to embedded models?"
                          [ defaultValue "`true`" ])
                  "embedded" true TBoolean ]) ];
     m_type := Some TObjectKw; m_body := None; m_init := None |}.

(** [declare class BaseToken extends Document<...>] *)
Definition BaseToken : ClassDecl :=
  {| c_doc := None;
     c_name := "BaseToken";
     c_extends := Some
       {| h_expr := EName ["Document"];
          h_targs :=
            [ tref ["BaseToken"; "SchemaField"];
              tref ["BaseToken"; "Metadata"];
              TUnion
                [ TRef ["InstanceType"]
                    [ TRef ["ConfiguredDocumentClass"]
                        [ TTypeof ["documents"; "BaseScene"] ] ];
                  TNull ] ] |};
     c_members :=
       [ constructor; metadata; defineSchema; validateDetectionModes;
         DEFAULT_ICON; canUpdate; testUserPermission; cleanData; migrateData;
         shimData ] |}.

(** *** [declare namespace BaseToken] *)

Definition Metadata : Decl :=
  DTypeAlias None "Metadata"
    (TRef ["Merge"]
       [ tref ["DocumentMetadata"];
         TObject
           [ opt "name" (TStringLit "Token");
             opt "collection" (TStringLit "tokens");
             opt "label" (TStringLit "DOCUMENT.Token");
             opt "labelPlural" (TStringLit "DOCUMENT.Tokens");
             opt "isEmbedded" TTrue;
             opt "permissions"
               (TObject
                  [ opt "create" (TStringLit "TOKEN_CREATE");
                    opt "update"
                      (TFunction
                         [ param "user" (tref ["documents"; "BaseUser"]);
                           param "doc" (tref ["Document"; "Any"]);
                           param "data" (tref ["UpdateData"]) ]
                         TBoolean);
                    opt "delete" (TStringLit "TOKEN_DELETE") ]) ] ]).

Definition SchemaField : Decl :=
  DTypeAlias None "SchemaField" (fields "SchemaField" [tref ["Schema"]]).

Definition ConstructorData : Decl :=
  DTypeAlias None "ConstructorData" (tref ["UpdateData"]).

Definition UpdateData : Decl :=
  DTypeAlias None "UpdateData"
    (TRef ["fields"; "SchemaField"; "InnerAssignmentType"] [tref ["Schema"]]).

Definition Properties : Decl :=
  DTypeAlias None "Properties"
    (TRef ["fields"; "SchemaField"; "InnerInitializedType"] [tref ["Schema"]]).

Definition Source : Decl :=
  DTypeAlias None "Source"
    (TRef ["fields"; "SchemaField"; "InnerPersistedType"] [tref ["Schema"]]).

(** The option object shared, word for word, by [bar1.attribute] and
    [bar2.attribute]. *)
Definition bar_attribute_options : TsType :=
  TObject
    [ opt "required" TTrue; opt "nullable" TTrue; opt "blank" TFalse;
      opt "initial" (TFunction [] (TUnion [TString; TNull])) ].

(** The fields of [sight]. *)
Definition sight_fields : list PropSig :=
  [ field "Should vision computation and rendering be active for this Token?"
      [ defaultValue "true, when the token's sight range is greater than 0" ]
      "enabled"
      (fields "BooleanField" [ TObject [ opt "initial" (TFunction [] TBoolean) ] ]);
    field "How far in distance units the Token can see without the aid of a light source"
      [ defaultValue "`null`" ]
      "range"
      (fields "NumberField"
         [ TObject [ opt "required" TTrue; opt "min" (TNumberLit 0);
                     opt "step" (TNumberLit 0.01) ] ]);
    field "An angle at which the Token can see relative to their direction of facing"
      [ defaultValue "`360`" ]
      "angle"
      (fields "AngleField"
         [ TObject [ opt "initial" (TNumberLit 360); opt "base" (TNumberLit 360) ] ]);
    field "The vision mode which is used to render the appearance of the visible area"
      [ defaultValue ("`" ++ dquote ++ "basic" ++ dquote ++ "`") ]
      "visionMode"
      (fields "StringField"
         [ TObject [ opt "required" TTrue; opt "blank" TFalse;
                     opt "initial" (TStringLit "basic");
                     opt "label" (TStringLit "TOKEN.VisionMode");
                     opt "hint" (TStringLit "TOKEN.VisionModeHint") ] ]);
    field "A special color which applies a hue to the visible area"
      [ defaultValue "`null`" ]
      "color"
      (fields "ColorField" [ TObject [ opt "label" (TStringLit "TOKEN.VisionColor") ] ]);
    field "A degree of attenuation which gradually fades the edges of the visible area"
      [ defaultValue "`0.1`" ]
      "attenuation"
      (fields "AlphaField"
         [ TObject [ opt "initial" (TNumberLit 0.1);
                     opt "label" (TStringLit "TOKEN.VisionAttenuation");
                     opt "hint" (TStringLit "TOKEN.VisionAttenuationHint") ] ]);
    field "An advanced customization for the perceived brightness of the visible area"
      [ defaultValue "`0`" ]
      "brightness"
      (fields "NumberField"
         [ TObject [ opt "required" TTrue; opt "nullable" TFalse;
                     opt "initial" (TNumberLit 0);
                     opt "min" (TNumberLit (-1)); opt "max" (TNumberLit 1);
                     opt "label" (TStringLit "TOKEN.VisionBrightness");
                     opt "hint" (TStringLit "TOKEN.VisionBrightnessHint") ] ]);
    field "An advanced customization of color saturation within the visible area"
      [ defaultValue "`0`" ]
      "saturation"
      (fields "NumberField"
         [ TObject [ opt "required" TTrue; opt "nullable" TFalse;
                     opt "initial" (TNumberLit 0);
                     opt "min" (TNumberLit (-1)); opt "max" (TNumberLit 1);
                     opt "label" (TStringLit "TOKEN.VisionSaturation");
                     opt "hint" (TStringLit "TOKEN.VisionSaturationHint") ] ]);
    field "An advanced customization for contrast within the visible area"
      [ defaultValue "`0`" ]
      "contrast"
      (fields "NumberField"
         [ TObject [ opt "required" TTrue; opt "nullable" TFalse;
                     opt "initial" (TNumberLit 0);
                     opt "min" (TNumberLit (-1)); opt "max" (TNumberLit 1);
                     opt "label" (TStringLit "TOKEN.VisionContrast");
                     opt "hint" (TStringLit "TOKEN.VisionContrastHint") ] ]) ].

(** The fields of one element of [detectionModes]. *)
Definition detection_mode_fields : list PropSig :=
  [ field "The id of the detection mode, a key from CONFIG.Canvas.detectionModes"
      [ defaultValue ("`" ++ dquote ++ dquote ++ "`") ]
      "id" (fields "StringField" []);
    field "Whether or not this detection mode is presently enabled"
      [ defaultValue "`true`" ]
      "enabled" (fields "BooleanField" [ TObject [ opt "initial" TTrue ] ]);
    field "The maximum range in distance units at which this mode can detect targets"
      [ defaultValue "`0`" ]
      "range"
      (fields "NumberField"
         [ TObject [ opt "required" TTrue; opt "min" (TNumberLit 0);
                     opt "step" (TNumberLit 0.01); opt "initial" (TNumberLit 0) ] ]) ].

(** [interface Schema extends DataSchema] *)
Definition Schema_fields : list PropSig :=
  [ field "The Token _id which uniquely identifies it within its parent Scene"
      [ defaultValue "`null`" ]
      "_id" (fields "DocumentIdField" []);
    field "The name used to describe the Token"
      [ defaultValue ("`" ++ dquote ++ dquote ++ "`") ]
      "name"
      (fields "StringField" [ TObject [ opt "required" TTrue; opt "blank" TTrue ] ]);
    field "The display mode of the Token nameplate, from CONST.TOKEN_DISPLAY_MODES"
      [ defaultValue "`CONST.TOKEN_DISPLAY_MODES.NONE`" ]
      "displayName"
      (fields "NumberField"
         [ TObject
             [ opt "required" TTrue;
               opt "initial" (TTypeof ["CONST"; "TOKEN_DISPLAY_MODES"; "NONE"]);
               opt "choices" (TArray (tref ["CONST"; "TOKEN_DISPLAY_MODES"]));
               opt "validationError"
                 (TStringLit "must be a value in CONST.TOKEN_DISPLAY_MODES") ];
           TUnion [ tref ["CONST"; "TOKEN_DISPLAY_MODES"]; TNull; TUndefined ];
           tref ["CONST"; "TOKEN_DISPLAY_MODES"];
           tref ["CONST"; "TOKEN_DISPLAY_MODES"] ]);
    field "The _id of an Actor document which this Token represents"
      [ defaultValue "`null`" ]
      "actorId"
      (fields "ForeignDocumentField"
         [ TTypeof ["documents"; "BaseActor"];
           TObject [ opt "idOnly" TTrue ] ]);
    field "Does this Token uniquely represent a singular Actor, or is it one of many?"
      [ defaultValue "`false`" ]
      "actorLink" (fields "BooleanField" []);
    field "Token-level data which overrides the base data of the associated Actor"
      [ defaultValue
          "see {@link documents.BaseActor}, excluding `prototypeToken` and `token`" ]
      "actorData"
      (fields "ObjectField"
         [ TObject [];
           TRef ["Exclude"]
             [ TRef ["documents"; "BaseActor"; "ConstructorData"]
                 [ tref ["documents"; "BaseActor"; "TypeNames"] ];
               TUnion [ TStringLit "prototypeToken"; TStringLit "token" ] ];
           TRef ["Exclude"]
             [ TRef ["documents"; "BaseActor"; "Properties"]
                 [ tref ["documents"; "BaseActor"; "TypeNames"] ];
               TUnion [ TStringLit "prototypeToken"; TStringLit "token" ] ];
           TRef ["Exclude"]
             [ TRef ["documents"; "BaseActor"; "Source"]
                 [ tref ["documents"; "BaseActor"; "TypeNames"] ];
               TUnion [ TStringLit "prototypeToken"; TStringLit "token" ] ] ]);
    field "The token's texture on the canvas."
      [ defaultValue "`BaseToken.DEFAULT_ICON`" ]
      "texture"
      (TRef ["TextureData"]
         [ TObject [];
           TObject
             [ opt "initial" (TFunction [] (TTypeof ["BaseToken"; "DEFAULT_ICON"]));
               opt "wildcard" TTrue ] ]);
    field "The width of the Token in grid units"
      [ defaultValue "`1`" ]
      "width"
      (fields "NumberField"
         [ TObject [ opt "positive" TTrue; opt "initial" (TNumberLit 1);
                     opt "label" (TStringLit "Width") ] ]);
    field "The height of the Token in grid units"
      [ defaultValue "`1`" ]
      "height"
      (fields "NumberField"
         [ TObject [ opt "positive" TTrue; opt "initial" (TNumberLit 1);
                     opt "label" (TStringLit "Height") ] ]);
    field "The x-coordinate of the top-left corner of the Token"
      [ defaultValue "`0`" ]
      "x"
      (fields "NumberField"
         [ TObject [ opt "required" TTrue; opt "integer" TTrue;
                     opt "nullable" TFalse; opt "initial" (TNumberLit 0);
                     opt "label" (TStringLit "XCoord") ] ]);
    field "The y-coordinate of the top-left corner of the Token"
      [ defaultValue "`0`" ]
      "y"
      (fields "NumberField"
         [ TObject [ opt "required" TTrue; opt "integer" TTrue;
                     opt "nullable" TFalse; opt "initial" (TNumberLit 0);
                     opt "label" (TStringLit "YCoord") ] ]);
    field "The vertical elevation of the Token, in distance units"
      [ defaultValue "`0`" ]
      "elevation"
      (fields "NumberField"
         [ TObject [ opt "required" TTrue; opt "nullable" TFalse;
                     opt "initial" (TNumberLit 0) ] ]);
    field "Prevent the Token image from visually rotating?"
      [ defaultValue "`false`" ]
      "lockRotation" (fields "BooleanField" []);
    field "The rotation of the Token in degrees, from 0 to 360. A value of 0 represents a southward-facing Token."
      [ defaultValue "`0`" ]
      "rotation" (fields "AngleField" []);
    field "An array of effect icon paths which are displayed on the Token"
      [ defaultValue "`[]`" ]
      "effects" (fields "ArrayField" [ fields "StringField" [] ]);
    field "A single icon path which is displayed as an overlay on the Token"
      [ defaultValue ("`" ++ dquote ++ dquote ++ "`") ]
      "overlayEffect" (fields "StringField" []);
    field "The opacity of the token image"
      [ defaultValue "`1`" ]
      "alpha" (fields "AlphaField" []);
    field "Is the Token currently hidden from player view?"
      [ defaultValue "`false`" ]
      "hidden" (fields "BooleanField" []);
    field "A displayed Token disposition from CONST.TOKEN_DISPOSITIONS"
      [ defaultValue "`CONST.TOKEN_DISPOSITIONS.HOSTILE`" ]
      "disposition"
      (fields "NumberField"
         [ TObject
             [ opt "required" TTrue;
               opt "choices" (TArray (tref ["CONST"; "TOKEN_DISPOSITIONS"]));
               opt "initial" (TTypeof ["CONST"; "TOKEN_DISPOSITIONS"; "HOSTILE"]);
               opt "validationError"
                 (TStringLit "must be a value in CONST.TOKEN_DISPOSITIONS") ];
           TUnion [ tref ["CONST"; "TOKEN_DISPOSITIONS"]; TNull; TUndefined ];
           tref ["CONST"; "TOKEN_DISPOSITIONS"];
           tref ["CONST"; "TOKEN_DISPOSITIONS"] ]);
    field "The display mode of Token resource bars, from CONST.TOKEN_DISPLAY_MODES"
      [ defaultValue "`CONST.TOKEN_DISPLAY_MODES.NONE`" ]
      "displayBars"
      (fields "NumberField"
         [ TObject
             [ opt "required" TTrue;
               opt "choices" (TArray (tref ["CONST"; "TOKEN_DISPLAY_MODES"]));
               opt "initial" (TTypeof ["CONST"; "TOKEN_DISPLAY_MODES"; "NONE"]);
               opt "validationError"
                 (TStringLit "must be a value in CONST.TOKEN_DISPLAY_MODES") ];
           TUnion [ tref ["CONST"; "TOKEN_DISPLAY_MODES"]; TNull; TUndefined ];
           tref ["CONST"; "TOKEN_DISPLAY_MODES"];
           tref ["CONST"; "TOKEN_DISPLAY_MODES"] ]);
    field "The configuration of the Token's primary resource bar"
      [ defaultValue "```typescript { attribute: null } ```" ]
      "bar1"
      (fields "SchemaField"
         [ TObject
             [ field "The attribute path within the Token's Actor data which should be displayed"
                 [ defaultValue "`game?.system.primaryTokenAttribute || null`" ]
                 "attribute"
                 (fields "StringField" [ bar_attribute_options ]) ] ]);
    field "The configuration of the Token's secondary resource bar"
      [ defaultValue "```typescript { attribute: null } ```" ]
      "bar2"
      (fields "SchemaField"
         [ TObject
             [ field "The attribute path within the Token's Actor data which should be displayed"
                 [ defaultValue "`game?.system.secondaryTokenAttribute`" ]
                 "attribute"
                 (fields "StringField" [ bar_attribute_options ]) ] ]);
    field "Configuration of the light source that this Token emits"
      [ defaultValue "see {@link LightData}" ]
      "light" (fields "EmbeddedDataField" [ tref ["LightData"] ]);
    field "Configuration of sight and vision properties for the Token"
      [ defaultValue "see properties" ]
      "sight" (fields "SchemaField" [ TObject sight_fields ]);
    field "An array of detection modes which are available to this Token"
      [ defaultValue "`[]`" ]
      "detectionModes"
      (fields "ArrayField"
         [ fields "SchemaField" [ TObject detection_mode_fields ];
           TObject [ opt "validate" (TFunction [] TVoid) ] ]);
    field "An object of optional key/value flags"
      [ defaultValue "`{}`" ]
      "flags"
      (TRef ["fields"; "ObjectField"; "FlagsField"] [ TStringLit "Token" ]) ].

Definition Schema : Decl :=
  DInterface None "Schema" [tref ["DataSchema"]] Schema_fields.

Definition namespace : Decl :=
  DNamespace true "BaseToken"
    [ Metadata; SchemaField; ConstructorData; UpdateData; Properties; Source;
      Schema ].

(** The file, in the order of its text. *)
Definition token_mjs_d_ts : SourceFile :=
  {| f_path := Some "src/foundry/common/documents/token.mjs.d.ts";
     f_decls :=
       imports ++
       [ global; BaseToken_interface; DClass true BaseToken;
         DExportDefault "BaseToken"; namespace ] |}.

End TokenDoc.

(** ** The declaration of the client-side [Card] document

    It follows the Token declarations in the source text after a separator
    line; its own path is not recorded there. *)

Module CardDoc.

Definition imports : list Decl :=
  [ DImport (MkImport true (INamed [(false, "ConfiguredDocumentClassForName")])
      "../../../../types/helperTypes.d.mts");
    DImport (MkImport true (INamed [(false, "DeepPartial")])
      "../../../../types/utils.d.mts") ].

(** [InstanceType<ConfiguredDocumentClassForName<"...">>] *)
Definition configured_instance (document : string) : TsType :=
  TRef ["InstanceType"]
    [ TRef ["ConfiguredDocumentClassForName"] [ TStringLit document ] ].

Definition getter (d : option Doc) (name : string) (t : TsType) : Member :=
  {| m_doc := d; m_static := false; m_override := false;
     m_kind := Getter; m_name := name; m_params := [];
     m_type := Some t; m_body := None; m_init := None |}.

Definition currentFace : Member :=
  getter (doc "The current card face" [])
    "currentFace" (TUnion [tref ["CardFaceData"]; TNull]).

Definition img : Member :=
  getter (doc "The image of the currently displayed card face or back" [])
    "img" TString.

Definition name : Member :=
  getter
    (doc "The name of the current card face, or the name of the card itself" [])
    "name" TString.

Definition source : Member :=
  getter
    (doc "A reference to the source Cards document which defines this Card." [])
    "source" (TUnion [configured_instance "Cards"; TUndefined; TNull]).

Definition isHome : Member :=
  getter
    (doc "A convenience property for whether or not the Card is within its source Cards stack. Cards in decks are always considered home." [])
    "isHome" TBoolean.

Definition showFace : Member :=
  getter (doc "Whether or not to display the face of this card?" [])
    "showFace" TBoolean.

Definition hasNextFace : Member :=
  getter (doc "Does this Card have a next face available to flip to?" [])
    "hasNextFace" TBoolean.

Definition hasPreviousFace : Member :=
  getter (doc "Does this Card have a previous face available to flip to?" [])
    "hasPreviousFace" TBoolean.

Definition prepareDerivedData : Member :=
  {| m_doc := None; m_static := false; m_override := true;
     m_kind := Method; m_name := "prepareDerivedData"; m_params := [];
     m_type := Some TVoid; m_body := None; m_init := None |}.

Definition flip : Member :=
  {| m_doc := doc "Flip this card to some other face. A specific face may be requested, otherwise: If the card currently displays a face the card is flipped to the back. If the card currently displays the back it is flipped to the first face."
       [ ("param", "face - A specific face to flip the card to");
         ("returns", "A reference to this card after the flip operation is complete") ];
     m_static := false; m_override := false;
     m_kind := Method; m_name := "flip";
     m_params := [ param_opt "face" (TUnion [TNumber; TNull; TUndefined]) ];
     m_type := Some (TRef ["Promise"]
                       [ TUnion [configured_instance "Card"; TUndefined] ]);
     m_body := None; m_init := None |}.

Definition pass : Member :=
  {| m_doc := doc "Pass this Card to some other Cards document."
       [ ("param", "to - A new Cards document this card should be passed to");
         ("param", "options - (default: `{}`)");
         ("returns", "A reference to this card after the it has been passed to another parent document") ];
     m_static := false; m_override := false;
     m_kind := Method; m_name := "pass";
     m_params :=
       [ param "to" (configured_instance "Cards");
         param_opt "options" (TUnion [tref ["Cards"; "PassOptions"]; TUndefined]) ];
     m_type := Some (TRef ["Promise"]
                       [ TUnion [configured_instance "Card"; TUndefined] ]);
     m_body := None; m_init := None |}.

Definition play : Member :=
  {| m_doc := doc "Play a specific card to some other Cards document. This method is currently a more semantic alias for Card#pass."
       [ ("see", "Card#pass") ];
     m_static := false; m_override := false;
     m_kind := Method; m_name := "play";
     m_params :=
       [ param "to" (configured_instance "Cards");
         param_opt "options" (TUnion [tref ["Cards"; "PassOptions"]; TUndefined]) ];
     m_type := Some (TRef ["Promise"]
                       [ TUnion [configured_instance "Card"; TUndefined] ]);
     m_body := None; m_init := None |}.

Definition discard : Member :=
  {| m_doc := doc "Discard a specific card to some other Cards document. This method is currently a more semantic alias for Card#pass."
       [ ("see", "Card#pass") ];
     m_static := false; m_override := false;
     m_kind := Method; m_name := "discard";
     m_params :=
       [ param "to" (configured_instance "Cards");
         param_opt "options" (TUnion [tref ["Cards"; "PassOptions"]; TUndefined]) ];
     m_type := Some (TRef ["Promise"]
                       [ TUnion [configured_instance "Card"; TUndefined] ]);
     m_body := None; m_init := None |}.

Definition recall : Member :=
  {| m_doc := doc "Recall this Card to its original Cards parent."
       [ ("param", "options - Options which modify the reset operation (default: `{}`)");
         ("returns", "A reference to the reset card belonging to its original parent") ];
     m_static := false; m_override := false;
     m_kind := Method; m_name := "recall";
     m_params :=
       [ param_opt "options" (TUnion [tref ["Cards"; "ResetOptions"]; TUndefined]) ];
     m_type := Some (TRef ["Promise"] [ configured_instance "Card" ]);
     m_body := None; m_init := None |}.

Definition toMessage : Member :=
  {| m_doc := doc "Create a chat message which displays this Card."
       [ ("param", "messageData - Additional data which becomes part of the created ChatMessageData (default: `{}`)");
         ("param", "options - Options which modify the message creation operation (default: `{}`)");
         ("returns", "The created chat message") ];
     m_static := false; m_override := false;
     m_kind := Method; m_name := "toMessage";
     m_params :=
       [ param_opt "messageData"
           (TRef ["DeepPartial"]
              [ tref ["foundry"; "documents"; "BaseChatMessage"; "ConstructorData"] ]);
         param_opt "options"
           (TUnion [tref ["DocumentModificationContext"]; TUndefined]) ];
     m_type := Some (TRef ["Promise"]
                       [ TUnion [configured_instance "ChatMessage"; TUndefined] ]);
     m_body := None; m_init := None |}.

(** [class Card extends ClientDocumentMixin(foundry.documents.BaseCard)],
    inside [declare global]. *)
Definition Card : ClassDecl :=
  {| c_doc := doc "The client-side Card document which extends the common BaseCard document model."
       [ ("see", "{@link documents.Cards} The Cards document type which contains Card embedded documents") ];
     c_name := "Card";
     c_extends := Some
       {| h_expr := ECall (EName ["ClientDocumentMixin"])
                      [ EName ["foundry"; "documents"; "BaseCard"] ];
          h_targs := [] |};
     c_members :=
       [ currentFace; img; name; source; isHome; showFace; hasNextFace;
         hasPreviousFace; prepareDerivedData; flip; pass; play; discard; recall;
         toMessage ] |}.

Definition global : Decl := DGlobal [ DClass false Card ].

Definition card_file : SourceFile :=
  {| f_path := None; f_decls := imports ++ [ global ] |}.

End CardDoc.

(** The repository: its two declaration texts. *)
Definition repository : list SourceFile :=
  [ TokenDoc.token_mjs_d_ts; CardDoc.card_file ].

(** ** Reading the declared surface *)

Module Surface.

(** *** Classes and their members *)

Fixpoint decl_classes (d : Decl) : list ClassDecl :=
  match d with
  | DClass _ c => [c]
  | DNamespace _ _ body => flat_map decl_classes body
  | DGlobal body => flat_map decl_classes body
  | _ => []
  end.

Definition classes (r : list SourceFile) : list ClassDecl :=
  flat_map (fun f => flat_map decl_classes (f_decls f)) r.

Definition members (r : list SourceFile) : list Member :=
  flat_map c_members (classes r).

Definition find_member (c : ClassDecl) (n : string) : option Member :=
  find (fun m => String.eqb (m_name m) n) (c_members c).

(** A member is implemented when it has a body or an initializer, and is a
    signature otherwise. *)
Definition implemented (m : Member) : bool :=
  match m_body m, m_init m with
  | None, None => false
  | _, _ => true
  end.

Definition signature_only (m : Member) : bool := negb (implemented m).

(** The declared signature of a member: its parameters and its type. *)
Definition signature (m : Member) : list Param * option TsType :=
  (m_params m, m_type m).

(** *** Executable code

    The statements a file would execute or define: bodies of functions and
    members, initializers, top-level statements, and the [extends] expression
    of a class that is not ambient.  A declaration is ambient under the
    [declare] modifier and inside a [declare] block. *)

Definition block (b : option (list Stmt)) : list Stmt :=
  match b with Some ss => ss | None => [] end.

Definition initializer (e : option Expr) : list Stmt :=
  match e with Some e => [SExpr e] | None => [] end.

Definition member_code (m : Member) : list Stmt :=
  block (m_body m) ++ initializer (m_init m).

Definition heritage_code (h : option Heritage) : list Stmt :=
  match h with Some h => [SExpr (h_expr h)] | None => [] end.

Fixpoint decl_code (ambient : bool) (d : Decl) : list Stmt :=
  match d with
  | DClass declare c =>
      (if ambient || declare then [] else heritage_code (c_extends c))
      ++ flat_map member_code (c_members c)
  | DNamespace declare _ body => flat_map (decl_code (ambient || declare)) body
  | DGlobal body => flat_map (decl_code true) body
  | DFunction _ _ _ _ body => block body
  | DVariable _ _ _ init => initializer init
  | DStatement s => [s]
  | DImport _ | DTypeAlias _ _ _ | DInterface _ _ _ _ | DExportDefault _ => []
  end.

Definition executable_code (r : list SourceFile) : list Stmt :=
  flat_map (fun f => flat_map (decl_code false) (f_decls f)) r.

(** The names that are given an implementation: members with a body or an
    initializer, functions with a body, variables with an initializer. *)
Fixpoint decl_implementations (d : Decl) : list string :=
  match d with
  | DClass _ c => map m_name (filter implemented (c_members c))
  | DNamespace _ _ body => flat_map decl_implementations body
  | DGlobal body => flat_map decl_implementations body
  | DFunction _ n _ _ (Some _) => [n]
  | DVariable _ n _ (Some _) => [n]
  | _ => []
  end.

Definition implementations (r : list SourceFile) : list string :=
  flat_map (fun f => flat_map decl_implementations (f_decls f)) r.

Definition implements (r : list SourceFile) (n : string) : bool :=
  existsb (String.eqb n) (implementations r).

(** A declaration that only describes: it is erased when the file is compiled
    and leaves nothing to run. *)
Definition import_erased (i : Import) : bool :=
  i_type_only i ||
  match i_clause i with
  | INamed xs => forallb fst xs
  | _ => false
  end.

Definition is_none {A : Type} (o : option A) : bool :=
  match o with None => true | Some _ => false end.

Fixpoint declaration_only (ambient : bool) (d : Decl) : bool :=
  match d with
  | DImport i => ambient || import_erased i
  | DTypeAlias _ _ _ => true
  | DInterface _ _ _ _ => true
  | DClass declare c =>
      (ambient || declare) && forallb signature_only (c_members c)
  | DNamespace declare _ body =>
      forallb (declaration_only (ambient || declare)) body
  | DGlobal body => forallb (declaration_only true) body
  | DFunction declare _ _ _ body => (ambient || declare) && is_none body
  | DVariable declare _ _ init => (ambient || declare) && is_none init
  | DExportDefault _ => true
  | DStatement _ => false
  end.

Definition declarations (r : list SourceFile) : list Decl :=
  flat_map f_decls r.

(** *** Raising and handling errors in code *)

Fixpoint raises (s : Stmt) : bool :=
  match s with
  | SThrow _ => true
  | SIf _ thn els => existsb raises thn || existsb raises els
  | SWhile _ body => existsb raises body
  | STry body handler finalizer =>
      existsb raises body || existsb raises handler || existsb raises finalizer
  | SExpr _ | SReturn _ => false
  end.

Fixpoint handles (s : Stmt) : bool :=
  match s with
  | STry _ _ _ => true
  | SIf _ thn els => existsb handles thn || existsb handles els
  | SWhile _ body => existsb handles body
  | SThrow _ | SExpr _ | SReturn _ => false
  end.

(** *** Documentation tags *)

Definition doc_tags (d : option Doc) : list (string * string) :=
  match d with Some d => tags d | None => [] end.

(** The texts of the [@throws] tags of a member's documentation. *)
Definition documented_throws (m : Member) : list string :=
  map snd (filter (fun t => String.eqb (fst t) "throws") (doc_tags (m_doc m))).

Definition documents_throw (m : Member) : bool :=
  match documented_throws m with [] => false | _ => true end.

(** *** Schemas: fields, sub-schemas and option objects *)

Definition lookup (ms : list PropSig) (n : string) : option TsType :=
  option_map prop_type (find (fun p => String.eqb (prop_name p) n) ms).

Definition has_field (ms : list PropSig) (n : string) : bool :=
  existsb (fun p => String.eqb (prop_name p) n) ms.

(** The [i]-th type argument of a type reference. *)
Definition targ (i : nat) (t : TsType) : option TsType :=
  match t with
  | TRef _ targs => nth_error targs i
  | _ => None
  end.

(** The property [o] of the object type that is the [i]-th type argument of
    the field [f]. *)
Definition option_at (i : nat) (ms : list PropSig) (f o : string)
  : option TsType :=
  match lookup ms f with
  | Some t =>
      match targ i t with
      | Some (TObject os) => lookup os o
      | _ => None
      end
  | None => None
  end.

Definition interface_fields (d : Decl) : list PropSig :=
  match d with
  | DInterface _ _ _ ms => ms
  | _ => []
  end.

(** *** Type aliases of a namespace *)

Definition namespace_body (d : Decl) : list Decl :=
  match d with
  | DNamespace _ _ body => body
  | _ => []
  end.

Definition namespace_name (d : Decl) : string :=
  match d with
  | DNamespace _ n _ => n
  | _ => EmptyString
  end.

Definition alias_of (scope : list Decl) (n : string) : option TsType :=
  match
    find (fun d => match d with
                   | DTypeAlias _ x _ => String.eqb x n
                   | _ => false
                   end) scope
  with
  | Some (DTypeAlias _ _ t) => Some t
  | _ => None
  end.

(** The member of namespace [ns] that a name denotes: [X] inside the
    namespace, [ns.X] outside of it. *)
Definition alias_name (ns : string) (q : QName) : option string :=
  match q with
  | [x] => Some x
  | [m; x] => if String.eqb m ns then Some x else None
  | _ => None
  end.

(** Replace a reference to an alias of the namespace by its definition, until
    the type is no longer such a reference. *)
Fixpoint expand (fuel : nat) (ns : Decl) (t : TsType) : TsType :=
  match fuel with
  | O => t
  | S fuel' =>
      match t with
      | TRef q [] =>
          match alias_name (namespace_name ns) q with
          | Some x =>
              match alias_of (namespace_body ns) x with
              | Some t' => expand fuel' ns t'
              | None => t
              end
          | None => t
          end
      | _ => t
      end
  end.

Definition resolve (ns : Decl) (t : TsType) : TsType :=
  expand (length (namespace_body ns)) ns t.

(** *** Promises *)

(** The type a declared [Promise<T>] resolves to. *)
Definition resolves_to (m : Member) : option TsType :=
  match m_type m with
  | Some (TRef ["Promise"] [t]) => Some t
  | _ => None
  end.

Definition is_undefined (t : TsType) : bool :=
  match t with
  | TKeyword KUndefined => true
  | _ => false
  end.

(** Whether [undefined] is the type or one of the alternatives of a union. *)
Definition includes_undefined (t : TsType) : bool :=
  match t with
  | TUnion ts => existsb is_undefined ts
  | _ => is_undefined t
  end.

(** *** What a file makes visible to other files

    A file with an import or an export is a module: what it declares is
    local, apart from its exports and from what it declares inside
    [declare global].  Any other file declares global names. *)

Inductive Export : Type :=
| ExportDefault (n : string)
| Global (n : string).

Definition decl_name (d : Decl) : option string :=
  match d with
  | DTypeAlias _ n _ => Some n
  | DInterface _ n _ _ => Some n
  | DClass _ c => Some (c_name c)
  | DNamespace _ n _ => Some n
  | DFunction _ n _ _ _ => Some n
  | DVariable _ n _ _ => Some n
  | _ => None
  end.

Definition global_names (ds : list Decl) : list Export :=
  flat_map (fun d => match decl_name d with
                     | Some n => [Global n]
                     | None => []
                     end) ds.

Definition is_module (f : SourceFile) : bool :=
  existsb (fun d => match d with
                    | DImport _ | DExportDefault _ => true
                    | _ => false
                    end) (f_decls f).

Definition decl_exports (d : Decl) : list Export :=
  match d with
  | DExportDefault n => [ExportDefault n]
  | DGlobal body => global_names body
  | _ => []
  end.

Definition file_exports (f : SourceFile) : list Export :=
  if is_module f then flat_map decl_exports (f_decls f)
  else global_names (f_decls f).

Definition exports (r : list SourceFile) : list Export :=
  flat_map file_exports r.

(** The declarations of a file that an exported name stands for. *)
Definition named (n : string) (ds : list Decl) : list Decl :=
  filter (fun d => match decl_name d with
                   | Some x => String.eqb x n
                   | None => false
                   end) ds.

Definition exported_decls (f : SourceFile) (e : Export) : list Decl :=
  match e with
  | ExportDefault n => named n (f_decls f)
  | Global n =>
      named n (flat_map (fun d => match d with
                                  | DGlobal body => body
                                  | _ => []
                                  end) (f_decls f))
  end.

(** Every exported name of the file stands for at least one declaration, and
    only for declarations that describe ([declare global] makes its content
    ambient; the others are judged by their own modifiers). *)
Definition export_describes (f : SourceFile) (e : Export) : bool :=
  match exported_decls f e with
  | [] => false
  | ds =>
      forallb (declaration_only (match e with
                                 | Global _ => true
                                 | ExportDefault _ => false
                                 end)) ds
  end.

End Surface.

Export Surface.

(** ** The two documents, as the declarations present them *)

(** An entry of the object type that [BaseToken.Metadata] merges into
    [DocumentMetadata]. *)
Definition metadata_entry (n : string) : option TsType :=
  match alias_of (namespace_body TokenDoc.namespace) "Metadata" with
  | Some t =>
      match targ 1 t with
      | Some (TObject ms) => lookup ms n
      | _ => None
      end
  | None => None
  end.

(** The document type that [BaseToken] names as its parent: the third type
    argument it passes to [Document]. *)
Definition parent_document (c : ClassDecl) : option TsType :=
  match c_extends c with
  | Some h => nth_error (h_targs h) 2
  | None => None
  end.

(** The type of the parameter called [data]. *)
Definition data_parameter (m : Member) : option TsType :=
  option_map param_type
    (find (fun p => match param_binding p with
                    | BName x => String.eqb x "data"
                    | BObject _ => false
                    end) (m_params m)).

(** The operations that the description of the components names, each with
    the class that declares it. *)
Definition named_operations : list (ClassDecl * string) :=
  [ (CardDoc.Card, "flip"); (CardDoc.Card, "pass"); (CardDoc.Card, "recall");
    (TokenDoc.BaseToken, "cleanData"); (TokenDoc.BaseToken, "migrateData") ].

(** Acceptance of a value by a type written inside or against the namespace
    [ns].  The aliases of the namespace are unfolded; what the remaining type
    expression admits is decided by declarations outside the repository
    ([fields.SchemaField.InnerAssignmentType] and the like), which [meaning]
    stands for. *)
Definition accepts {Value : Type} (meaning : TsType -> Value -> Prop)
    (ns : Decl) (t : TsType) (v : Value) : Prop :=
  meaning (resolve ns t) v.

(** A type is settled in a namespace when it is not a reference to one of the
    namespace's aliases: [expand] leaves it as it is. *)
Definition settled (ns : Decl) (t : TsType) : bool :=
  match t with
  | TRef q [] =>
      match alias_name (namespace_name ns) q with
      | Some x => is_none (alias_of (namespace_body ns) x)
      | None => true
      end
  | _ => true
  end.

(** A declaration together with the declarations nested in it. *)
Fixpoint nested (d : Decl) : list Decl :=
  d :: match d with
       | DNamespace _ _ body => flat_map nested body
       | DGlobal body => flat_map nested body
       | _ => []
       end.

Definition all_declarations (r : list SourceFile) : list Decl :=
  flat_map nested (declarations r).

(** Declarations that stand for something at run time: a function, a
    variable, a statement. *)
Definition is_value_declaration (d : Decl) : bool :=
  match d with
  | DFunction _ _ _ _ _ | DVariable _ _ _ _ | DStatement _ => true
  | _ => false
  end.

Definition is_some {A : Type} (o : option A) : bool :=
  match o with Some _ => true | None => false end.

(** ** Consistency readers

    Readers that relate one part of the declarations to another: the fields
    of the schema at every depth, their option objects, the text of literal
    types, index paths of aliases, names referred to. *)

Module Consistency.

Definition qname_eqb (a b : QName) : bool :=
  if list_eq_dec string_dec a b then true else false.

Definition object_members (t : TsType) : list PropSig :=
  match t with
  | TObject ms => ms
  | _ => []
  end.

(** *** Fields at every depth

    A field of type [fields.SchemaField<{...}>] has the fields of that object
    type below it; a field of type [fields.ArrayField<E, ...>] has what its
    element type [E] has below it. *)
Fixpoint nested_fields (t : TsType) : list PropSig :=
  match t with
  | TRef q (TObject ms :: _) =>
      if qname_eqb q ["fields"; "SchemaField"] then
        (fix below (ps : list PropSig) : list PropSig :=
           match ps with
           | [] => []
           | MkProp d n o t' :: ps' =>
               MkProp d n o t' :: nested_fields t' ++ below ps'
           end) ms
      else []
  | TRef q (e :: _) =>
      if qname_eqb q ["fields"; "ArrayField"] then nested_fields e else []
  | _ => []
  end.

Definition deep_fields (ms : list PropSig) : list PropSig :=
  flat_map (fun p => p :: nested_fields (prop_type p)) ms.

(** The fields of the Token schema, at every depth. *)
Definition token_fields : list PropSig :=
  deep_fields (interface_fields TokenDoc.Schema).

(** *** Options of a field

    The entries of the object types among the type arguments of the field,
    the sub-schema of a [fields.SchemaField] apart. *)
Definition field_options (t : TsType) : list PropSig :=
  match t with
  | TRef q targs =>
      flat_map object_members
        (if qname_eqb q ["fields"; "SchemaField"] then tl targs else targs)
  | _ => []
  end.

Definition option_of (p : PropSig) (o : string) : option TsType :=
  lookup (field_options (prop_type p)) o.

Definition numeric (o : option TsType) : option Q :=
  match o with
  | Some (TNumberLit q) => Some q
  | _ => None
  end.

Definition is_true (o : option TsType) : bool :=
  match o with
  | Some (TBooleanLit true) => true
  | _ => false
  end.

(** *** The text of literal types, as the source writes them *)

Definition number_text (q : Q) : option string :=
  match IQmake_to_decimal (Qnum q) (Qden q) with
  | Some (Decimal.Decimal i f) =>
      Some (DecimalString.NilZero.string_of_int i ++
            match f with
            | Decimal.Nil => EmptyString
            | _ => "." ++ DecimalString.NilEmpty.string_of_uint f
            end)
  | _ => None
  end.

Definition literal_text (t : TsType) : option string :=
  match t with
  | TNumberLit q => number_text q
  | TStringLit s => Some (dquote ++ s ++ dquote)
  | TBooleanLit b => Some (if b then "true" else "false")
  | TTypeof n => Some (String.concat "." n)
  | _ => None
  end.

(** The texts of the [@defaultValue] tags of a field. *)
Definition documented_defaults (p : PropSig) : list string :=
  map snd (filter (fun t => String.eqb (fst t) "defaultValue")
             (doc_tags (prop_doc p))).

(** The text of the [initial] option of a field, when it is a literal or a
    [typeof] type. *)
Definition initial_text (p : PropSig) : option string :=
  match option_of p "initial" with
  | Some t => literal_text t
  | None => None
  end.

(** *** Numeric bounds of a field *)

Definition Qis_integer (q : Q) : bool := Pos.eqb (Qden (Qred q)) 1.

Definition lower_ok (i : Q) (p : PropSig) : bool :=
  match numeric (option_of p "min") with
  | Some m => Qle_bool m i
  | None => true
  end.

Definition upper_ok (i : Q) (p : PropSig) : bool :=
  match numeric (option_of p "max") with
  | Some m => Qle_bool i m
  | None => true
  end.

Definition positive_ok (i : Q) (p : PropSig) : bool :=
  if is_true (option_of p "positive")
  then Qle_bool 0 i && negb (Qeq_bool 0 i)
  else true.

Definition integer_ok (i : Q) (p : PropSig) : bool :=
  if is_true (option_of p "integer") then Qis_integer i else true.

(** The numeric [initial] of a field, if it declares one, meets the [min],
    [max], [positive] and [integer] options the field declares; and a declared
    [min] does not exceed a declared [max]. *)
Definition bounds_consistent (p : PropSig) : bool :=
  match numeric (option_of p "initial") with
  | Some i => lower_ok i p && upper_ok i p && positive_ok i p && integer_ok i p
  | None => true
  end
  && match numeric (option_of p "min"), numeric (option_of p "max") with
     | Some lo, Some hi => Qle_bool lo hi
     | _, _ => true
     end.

Definition has_bound (p : PropSig) : bool :=
  is_some (numeric (option_of p "min")) || is_some (numeric (option_of p "max"))
  || is_true (option_of p "positive") || is_true (option_of p "integer").

(** *** Index paths

    [T["a"]["b"][number]] is the name [T] and the indices ["a"], ["b"],
    [number]. *)
Fixpoint index_path (t : TsType) : option (QName * list TsType) :=
  match t with
  | TRef q [] => Some (q, [])
  | TIndexed t' i =>
      match index_path t' with
      | Some (q, path) => Some (q, (path ++ [i])%list)
      | None => None
      end
  | _ => None
  end.

(** One indexing step: a string literal selects a field of a schema or of a
    [fields.SchemaField], [number] selects the element of a
    [fields.ArrayField]. *)
Definition index_step (t : TsType) (i : TsType) : option TsType :=
  match t, i with
  | TObject ms, TStringLit k => lookup ms k
  | TRef q (TObject ms :: _), TStringLit k =>
      if qname_eqb q ["fields"; "SchemaField"] then lookup ms k else None
  | TRef q (e :: _), TKeyword KNumber =>
      if qname_eqb q ["fields"; "ArrayField"] then Some e else None
  | _, _ => None
  end.

Definition project (schema : list PropSig) (path : list TsType)
  : option TsType :=
  fold_left (fun acc i => match acc with
                          | Some t => index_step t i
                          | None => None
                          end) path (Some (TObject schema)).

Definition alias_type (d : Decl) : option TsType :=
  match d with
  | DTypeAlias _ _ t => Some t
  | _ => None
  end.

(** What a global alias of the Token file selects from the schema: its index
    path must start at [BaseToken.Properties]. *)
Definition selects (d : Decl) : option TsType :=
  match alias_type d with
  | Some t =>
      match index_path t with
      | Some (q, path) =>
          if qname_eqb q ["BaseToken"; "Properties"]
          then project (interface_fields TokenDoc.Schema) path
          else None
      | None => None
      end
  | None => None
  end.

(** *** Types without their documentation *)


(** *** Names referred to *)

Definition head (q : QName) : list string :=
  match q with
  | x :: _ => [x]
  | [] => []
  end.

(** The first components of the names a type refers to. *)
Fixpoint type_names (t : TsType) : list string :=
  match t with
  | TRef n targs => head n ++ flat_map type_names targs
  | TTypeof n => head n
  | TKeyof t' => type_names t'
  | TIndexed t' i => type_names t' ++ type_names i
  | TArray t' => type_names t'
  | TUnion ts => flat_map type_names ts
  | TFunction ps ret =>
      flat_map (fun p => match p with
                         | MkParam _ _ t' => type_names t'
                         end) ps
      ++ type_names ret
  | TObject ms =>
      flat_map (fun p => match p with
                         | MkProp _ _ _ t' => type_names t'
                         end) ms
  | TKeyword _ | TStringLit _ | TNumberLit _ | TBooleanLit _ => []
  end.

Fixpoint expr_names (e : Expr) : list string :=
  match e with
  | EName n => head n
  | ECall f args => expr_names f ++ flat_map expr_names args
  | ENew f args => expr_names f ++ flat_map expr_names args
  | EString _ | ENumber _ => []
  end.

Definition optional_names (o : option TsType) : list string :=
  match o with
  | Some t => type_names t
  | None => []
  end.

Definition member_names (m : Member) : list string :=
  flat_map (fun p => type_names (param_type p)) (m_params m)
  ++ optional_names (m_type m).

Definition class_names (c : ClassDecl) : list string :=
  match c_extends c with
  | Some h => expr_names (h_expr h) ++ flat_map type_names (h_targs h)
  | None => []
  end ++ flat_map member_names (c_members c).

Fixpoint decl_names (d : Decl) : list string :=
  match d with
  | DTypeAlias _ _ t => type_names t
  | DInterface _ _ ext ms =>
      flat_map type_names ext
      ++ flat_map (fun p => type_names (prop_type p)) ms
  | DClass _ c => class_names c
  | DNamespace _ _ body => flat_map decl_names body
  | DGlobal body => flat_map decl_names body
  | DFunction _ _ ps ret _ =>
      flat_map (fun p => type_names (param_type p)) ps ++ optional_names ret
  | DVariable _ _ t _ => optional_names t
  | DExportDefault n => [n]
  | DImport _ | DStatement _ => []
  end.

Definition referred (f : SourceFile) : list string :=
  flat_map decl_names (f_decls f).

(** The names an import binds. *)
Definition import_bindings (d : Decl) : list string :=
  match d with
  | DImport i =>
      match i_clause i with
      | IDefault x => [x]
      | INamespace x => [x]
      | INamed xs => map snd xs
      end
  | _ => []
  end.

Definition imported (f : SourceFile) : list string :=
  flat_map import_bindings (f_decls f).

Definition mem (x : string) (l : list string) : bool :=
  existsb (String.eqb x) l.

(** *** Destructured parameters *)

Definition destructured (m : Member) : list Param :=
  filter (fun p => match param_binding p with
                   | BObject _ => true
                   | BName _ => false
                   end) (m_params m).

Definition bound_names (p : Param) : list string :=
  match param_binding p with
  | BObject xs => xs
  | BName x => [x]
  end.

Definition prop_optional (p : PropSig) : bool :=
  match p with MkProp _ _ o _ => o end.

(** *** The permission to update *)

(** The type of [permissions.update] in [BaseToken.Metadata]. *)
Definition update_permission : option TsType :=
  match metadata_entry "permissions" with
  | Some (TObject ps) => lookup ps "update"
  | _ => None
  end.

Definition resolved_parameters (ps : list Param) : list TsType :=
  map (fun p => resolve TokenDoc.namespace (param_type p)) ps.

(** *** Record shapes

    The declarations that describe a record, at any depth of namespaces and
    [declare global] blocks: classes, interfaces and type aliases.  Each is
    listed with its kind, its name and the document it belongs to: the
    outermost namespace that encloses it; otherwise, for a class or an
    interface, its own name (a class, an interface and a namespace of one name
    merge into one declaration), and for a type alias the first component of
    the name it is an index path of, or its own name when it is not an index
    path. *)

Inductive ShapeKind : Type :=
| ClassShape | InterfaceShape | AliasShape.

Definition alias_root (n : string) (t : TsType) : string :=
  match index_path t with
  | Some (x :: _, _) => x
  | _ => n
  end.

Definition owner (enclosing : option string) (own : string) : string :=
  match enclosing with
  | Some ns => ns
  | None => own
  end.

Fixpoint decl_shapes (enclosing : option string) (d : Decl)
  : list (ShapeKind * string * string) :=
  match d with
  | DClass _ c => [ (ClassShape, c_name c, owner enclosing (c_name c)) ]
  | DInterface _ n _ _ => [ (InterfaceShape, n, owner enclosing n) ]
  | DTypeAlias _ n t => [ (AliasShape, n, owner enclosing (alias_root n t)) ]
  | DNamespace _ n body =>
      flat_map (decl_shapes (Some (owner enclosing n))) body
  | DGlobal body => flat_map (decl_shapes enclosing) body
  | DImport _ | DFunction _ _ _ _ _ | DVariable _ _ _ _ | DExportDefault _
  | DStatement _ => []
  end.

Definition shapes (r : list SourceFile) : list (ShapeKind * string * string) :=
  flat_map (decl_shapes None) (declarations r).

(** The documents that the shapes belong to, each once, in order of first
    appearance. *)
Fixpoint distinct (l : list string) : list string :=
  match l with
  | [] => []
  | x :: l' => x :: filter (fun y => negb (String.eqb x y)) (distinct l')
  end.

Definition documents (r : list SourceFile) : list string :=
  distinct (map snd (shapes r)).

(** The interfaces, at any depth, that declare fields of their own. *)
Definition interfaces_with_fields (r : list SourceFile) : list Decl :=
  filter (fun d => match d with
                   | DInterface _ _ _ (_ :: _) => true
                   | _ => false
                   end) (all_declarations r).

(** *** Small readers used by the statements *)

Fixpoint nodupb (l : list string) : bool :=
  match l with
  | [] => true
  | x :: l' => negb (mem x l') && nodupb l'
  end.

(** The field called [n] of a schema (a field of type [undefined] under that
    name when the schema has none). *)
Definition the_field (ms : list PropSig) (n : string) : PropSig :=
  match find (fun p => String.eqb (prop_name p) n) ms with
  | Some p => p
  | None => opt n TUndefined
  end.

Definition global_body (d : Decl) : list Decl :=
  match d with
  | DGlobal body => body
  | _ => []
  end.

Definition same_strings (a b : list string) : bool :=
  if list_eq_dec string_dec a b then true else false.

(** A field documents one default value, and it is the text of its [initial]
    option when that option is a literal or a [typeof] type. *)
Definition default_agrees (p : PropSig) : bool :=
  Nat.eqb (length (documented_defaults p)) 1
  && match initial_text p with
     | Some s => same_strings (documented_defaults p) ["`" ++ s ++ "`"]
     | None => true
     end.

(** The fields restricted to enumerated values: those with a [choices]
    option. *)
Definition choice_fields : list PropSig :=
  filter (fun p => is_some (option_of p "choices")) token_fields.

Definition is_kind (k : MemberKind) (m : Member) : bool :=
  match k, m_kind m with
  | Constructor, Constructor | Method, Method | Getter, Getter
  | Setter, Setter | Property, Property => true
  | _, _ => false
  end.

End Consistency.

Export Consistency.

(** * Properties *)

(** ** The readers are sound *)

Section DeclInduction.

Variable P : Decl -> Prop.

Hypothesis HImport : forall i, P (DImport i).
Hypothesis HTypeAlias : forall d n t, P (DTypeAlias d n t).
Hypothesis HInterface : forall d n ext ms, P (DInterface d n ext ms).
Hypothesis HClass : forall declare c, P (DClass declare c).
Hypothesis HNamespace :
  forall declare n body, Forall P body -> P (DNamespace declare n body).
Hypothesis HGlobal : forall body, Forall P body -> P (DGlobal body).
Hypothesis HFunction : forall declare n ps ret body,
    P (DFunction declare n ps ret body).
Hypothesis HVariable : forall declare n t init,
    P (DVariable declare n t init).
Hypothesis HExportDefault : forall n, P (DExportDefault n).
Hypothesis HStatement : forall s, P (DStatement s).

(** Induction on declarations that reaches into the blocks of namespaces
    and of [declare global]. *)
Fixpoint Decl_nested_ind (d : Decl) : P d :=
  match d with
  | DImport i => HImport i
  | DTypeAlias d n t => HTypeAlias d n t
  | DInterface d n ext ms => HInterface d n ext ms
  | DClass declare c => HClass declare c
  | DNamespace declare n body =>
      HNamespace declare n body
        ((fix all (ds : list Decl) : Forall P ds :=
            match ds with
            | [] => Forall_nil P
            | d' :: ds' => Forall_cons d' (Decl_nested_ind d') (all ds')
            end) body)
  | DGlobal body =>
      HGlobal body
        ((fix all (ds : list Decl) : Forall P ds :=
            match ds with
            | [] => Forall_nil P
            | d' :: ds' => Forall_cons d' (Decl_nested_ind d') (all ds')
            end) body)
  | DFunction declare n ps ret body => HFunction declare n ps ret body
  | DVariable declare n t init => HVariable declare n t init
  | DExportDefault n => HExportDefault n
  | DStatement s => HStatement s
  end.

End DeclInduction.

Lemma flat_map_nil {A B : Type} (f : A -> list B) (l : list A) :
  Forall (fun x => f x = []) l -> flat_map f l = [].
Proof.
  induction 1 as [| x l Hx _ IH]; simpl.
  - reflexivity.
  - now rewrite Hx, IH.
Qed.

Lemma flat_map_nested {A B C : Type} (f : A -> list B) (g : B -> list C)
    (l : list A) :
  flat_map g (flat_map f l) = flat_map (fun x => flat_map g (f x)) l.
Proof.
  induction l as [| x l IH]; simpl.
  - reflexivity.
  - now rewrite flat_map_app, IH.
Qed.

(** A member that is a signature contributes no code. *)
Lemma signature_only_no_code (m : Member) :
  signature_only m = true -> member_code m = [].
Proof.
  unfold signature_only, implemented, member_code.
  destruct (m_body m), (m_init m); simpl; intros H;
    try discriminate; reflexivity.
Qed.

Lemma signature_only_spec (m : Member) :
  signature_only m = true <-> m_body m = None /\ m_init m = None.
Proof.
  unfold signature_only, implemented.
  destruct (m_body m), (m_init m); simpl; split;
    (intros [? ?] || intros ?); try discriminate; auto.
Qed.

(** A declaration accepted by [declaration_only] contributes no code, in the
    context it was accepted in. *)
Lemma declaration_only_no_code (d : Decl) :
  forall ambient, declaration_only ambient d = true -> decl_code ambient d = [].
Proof.
  induction d as
    [ i | dc n t | dc n ext ms | declare c | declare n body IH | body IH
    | declare n ps ret body | declare n t init | n | s ]
    using Decl_nested_ind; intros ambient H; simpl in *;
    try reflexivity; try discriminate.
  - apply andb_prop in H as [Ha Hm].
    rewrite Ha; simpl.
    apply flat_map_nil, Forall_forall.
    intros m Hin. apply signature_only_no_code.
    rewrite forallb_forall in Hm. now apply Hm.
  - apply flat_map_nil.
    rewrite forallb_forall in H. rewrite Forall_forall in IH |- *.
    intros d Hin. apply IH; auto.
  - apply flat_map_nil.
    rewrite forallb_forall in H. rewrite Forall_forall in IH |- *.
    intros d Hin. apply IH; auto.
  - apply andb_prop in H as [_ Hb]. now destruct body.
  - apply andb_prop in H as [_ Hb]. now destruct init.
Qed.

(** A repository made of such declarations has no executable code. *)
Lemma described_repository_no_code (r : list SourceFile) :
  forallb (declaration_only false) (declarations r) = true ->
  executable_code r = [].
Proof.
  intros H. unfold executable_code.
  rewrite <- (flat_map_nested f_decls (decl_code false)).
  apply flat_map_nil, Forall_forall. intros d Hin.
  apply declaration_only_no_code.
  unfold declarations in H. rewrite forallb_forall in H. now apply H.
Qed.

(** Where there is no code, no statement has any property. *)
Lemma no_code_no_statement (r : list SourceFile) :
  executable_code r = [] ->
  forall check : Stmt -> bool, existsb check (executable_code r) = false.
Proof.
  intros H check. now rewrite H.
Qed.

(** A signature is never among the implementations of its class. *)
Lemma signatures_not_implemented (c : ClassDecl) :
  forallb signature_only (c_members c) = true ->
  filter implemented (c_members c) = [].
Proof.
  induction (c_members c) as [| m ms IH]; simpl; intros H.
  - reflexivity.
  - apply andb_prop in H as [Hm Hms].
    unfold signature_only in Hm. apply negb_true_iff in Hm.
    rewrite Hm. auto.
Qed.

(** Once expansion has settled, more fuel changes nothing. *)
Lemma expand_settled (ns : Decl) (t : TsType) :
  settled ns t = true -> forall k, expand k ns t = t.
Proof.
  intros H [| k]; simpl.
  - reflexivity.
  - unfold settled in H.
    destruct t as [ | | | | q targs | | | | | | | ]; try reflexivity.
    destruct targs; try reflexivity.
    destruct (alias_name (namespace_name ns) q); try reflexivity.
    destruct (alias_of (namespace_body ns) s); [discriminate | reflexivity].
Qed.

Lemma expand_more_fuel (ns : Decl) :
  forall k t, settled ns (expand k ns t) = true ->
  forall k', expand (k + k') ns t = expand k ns t.
Proof.
  induction k as [| k IH]; intros t H k'; simpl in *.
  - now apply expand_settled.
  - destruct t as [ | | | | q targs | | | | | | | ]; try reflexivity.
    destruct targs; try reflexivity.
    destruct (alias_name (namespace_name ns) q); try reflexivity.
    destruct (alias_of (namespace_body ns) s); try reflexivity.
    now apply IH.
Qed.

(** An alias that is defined as a reference to another alias of the same
    namespace admits what the other admits, whatever the types outside the
    repository mean, as soon as the other one settles within the fuel. *)
Lemma alias_accepts_same {Value : Type} (meaning : TsType -> Value -> Prop)
    (ns : Decl) (x y : string) (k : nat) :
  alias_of (namespace_body ns) x = Some (tref [y]) ->
  length (namespace_body ns) = S k ->
  settled ns (expand k ns (tref [y])) = true ->
  forall v, accepts meaning ns (tref [x]) v <-> accepts meaning ns (tref [y]) v.
Proof.
  intros Hx Hlen Hs v. unfold accepts, resolve. rewrite Hlen.
  replace (expand (S k) ns (tref [x])) with (expand k ns (tref [y])).
  - replace (S k) with (k + 1) by (rewrite PeanoNat.Nat.add_comm; reflexivity).
    rewrite (expand_more_fuel ns k (tref [y]) Hs 1). reflexivity.
  - simpl. now rewrite Hx.
Qed.

(** ** The repository declares and does not implement *)

Lemma repository_describes :
  forallb (declaration_only false) (declarations repository) = true.
Proof. vm_compute. reflexivity. Qed.

Lemma repository_no_code : executable_code repository = [].
Proof. apply described_repository_no_code, repository_describes. Qed.

Lemma class_signatures (c : ClassDecl) :
  forallb signature_only (c_members c) = true ->
  Forall (fun m => m_body m = None /\ m_init m = None) (c_members c).
Proof.
  intros H. apply Forall_forall. intros m Hin.
  apply signature_only_spec.
  rewrite forallb_forall in H. now apply H.
Qed.

(** C1: the source files hold no executable body.  The classes of the
    repository are [BaseToken] and [Card]; every declaration of the two files
    only describes (an import of types, a type alias, an interface of fields,
    an ambient class, namespace or global block of such); every member of
    [BaseToken] and of [Card] is a field or a signature, without body and
    without initializer; no name is given an implementation; and the
    repository has no executable statement, so no statement of it is part of a
    parser, a state machine, a storage engine, a protocol or any algorithm,
    whatever test [part_of] recognises one. *)
Theorem no_executable_bodies :
  classes repository = [TokenDoc.BaseToken; CardDoc.Card]
  /\ Forall (fun d => declaration_only false d = true) (declarations repository)
  /\ Forall (fun m => m_body m = None /\ m_init m = None)
       (c_members TokenDoc.BaseToken)
  /\ Forall (fun m => m_body m = None /\ m_init m = None)
       (c_members CardDoc.Card)
  /\ implementations repository = []
  /\ executable_code repository = []
  /\ (forall part_of : Stmt -> bool,
        existsb part_of (executable_code repository) = false).
Proof.
  split; [reflexivity |].
  split.
  { apply Forall_forall. intros d Hin.
    pose proof repository_describes as H.
    rewrite forallb_forall in H. now apply H. }
  split; [apply class_signatures; reflexivity |].
  split; [apply class_signatures; reflexivity |].
  split; [reflexivity |].
  split; [apply repository_no_code |].
  apply no_code_no_statement, repository_no_code.
Qed.

(** C2: [BaseToken.#validateDetectionModes] (documented as validating the
    structure of the detection modes array) and [BaseToken.#canUpdate]
    (documented as deciding whether a user is able to update an existing
    Token) are members of [BaseToken], each a static method signature with the
    parameters and result shown, neither has a body, and nothing in the
    repository implements either name. *)
Theorem validation_operations_are_signatures :
  find_member TokenDoc.BaseToken "#validateDetectionModes"
    = Some TokenDoc.validateDetectionModes
  /\ find_member TokenDoc.BaseToken "#canUpdate" = Some TokenDoc.canUpdate
  /\ option_map summary (m_doc TokenDoc.validateDetectionModes)
      = Some "Validate the structure of the detection modes array"
  /\ option_map summary (m_doc TokenDoc.canUpdate)
      = Some "Is a user able to update an existing Token?"
  /\ (m_kind TokenDoc.validateDetectionModes,
      m_static TokenDoc.validateDetectionModes) = (Method, true)
  /\ (m_kind TokenDoc.canUpdate, m_static TokenDoc.canUpdate) = (Method, true)
  /\ signature TokenDoc.validateDetectionModes
      = ([ param "modes" (TArray (tref ["TokenDetectionMode"])) ], Some TVoid)
  /\ signature TokenDoc.canUpdate
      = ([ param "user" (tref ["documents"; "BaseUser"]);
           param "doc" (tref ["BaseToken"]);
           param "data" (tref ["BaseToken"; "UpdateData"]) ], Some TBoolean)
  /\ m_body TokenDoc.validateDetectionModes = None
  /\ m_body TokenDoc.canUpdate = None
  /\ implements repository "#validateDetectionModes" = false
  /\ implements repository "#canUpdate" = false.
Proof. repeat split; reflexivity. Qed.

(** C3: each of [Card.flip], [Card.pass], [Card.recall],
    [BaseToken.cleanData] and [BaseToken.migrateData] is declared by a class
    of the repository as a method without body and without initializer: it
    contributes no code, and nothing in the repository implements its name. *)
Theorem named_operations_are_signatures (c : ClassDecl) (n : string) :
  In (c, n) named_operations ->
  In c (classes repository)
  /\ exists m, find_member c n = Some m
             /\ m_kind m = Method
             /\ m_body m = None
             /\ m_init m = None
             /\ member_code m = []
             /\ implements repository n = false.
Proof.
  unfold named_operations.
  intros [H | [H | [H | [H | [H | []]]]]]; injection H as <- <-.
  - split; [right; left; reflexivity |].
    exists CardDoc.flip. repeat split; reflexivity.
  - split; [right; left; reflexivity |].
    exists CardDoc.pass. repeat split; reflexivity.
  - split; [right; left; reflexivity |].
    exists CardDoc.recall. repeat split; reflexivity.
  - split; [left; reflexivity |].
    exists TokenDoc.cleanData. repeat split; reflexivity.
  - split; [left; reflexivity |].
    exists TokenDoc.migrateData. repeat split; reflexivity.
Qed.

Lemma named_operations_are_signatures_witness :
  In CardDoc.Card (classes repository)
  /\ exists m, find_member CardDoc.Card "recall" = Some m
             /\ m_kind m = Method
             /\ m_body m = None
             /\ m_init m = None
             /\ member_code m = []
             /\ implements repository "recall" = false.
Proof.
  apply (named_operations_are_signatures CardDoc.Card "recall").
  right; right; left; reflexivity.
Defined.

(** ** The shapes that are described *)

(** C4: the declarations describe exactly two documents, [BaseToken] (whose
    metadata names it ["Token"]) and [Card].  Every class, interface and type
    alias, at any depth of namespaces and [declare global] blocks, is listed
    with the document it belongs to, and these documents are the two: the
    class, the interface and the namespace [BaseToken] merge, the aliases and
    the interface [Schema] of the namespace belong to it, the four global
    aliases are index paths of [BaseToken.Properties], which resolves to a type
    of [Schema]; [Card] is a class alone.  [Schema] is the only interface with
    fields of its own.  The Token schema has the
    fields [x] and [y] (position), [rotation], [sight] (with the vision
    parameters listed), [bar1] and [bar2] (each binding an [attribute]) and
    [detectionModes] (an array of sub-schemas).  Sibling documents are
    referred to: an Actor by the foreign-document field [actorId], a Cards
    stack by the accessor [Card.source], and a Scene as the parent document
    type that [BaseToken] passes to [Document]. *)
Theorem token_and_card_shapes :
  map c_name (classes repository) = ["BaseToken"; "Card"]
  /\ documents repository = ["BaseToken"; "Card"]
  /\ shapes repository
      = [ (AliasShape, "TokenSightData", "BaseToken");
          (AliasShape, "TokenDetectionMode", "BaseToken");
          (AliasShape, "TokenData", "BaseToken");
          (AliasShape, "TokenBarData", "BaseToken");
          (InterfaceShape, "BaseToken", "BaseToken");
          (ClassShape, "BaseToken", "BaseToken");
          (AliasShape, "Metadata", "BaseToken");
          (AliasShape, "SchemaField", "BaseToken");
          (AliasShape, "ConstructorData", "BaseToken");
          (AliasShape, "UpdateData", "BaseToken");
          (AliasShape, "Properties", "BaseToken");
          (AliasShape, "Source", "BaseToken");
          (InterfaceShape, "Schema", "BaseToken");
          (ClassShape, "Card", "Card") ]
  /\ interfaces_with_fields repository = [ TokenDoc.Schema ]
  /\ named "BaseToken" (f_decls TokenDoc.token_mjs_d_ts)
      = [ DInterface
            (doc "The base Token model definition which defines common behavior of an Token document between both client and server." [])
            "BaseToken" [ tref ["BaseToken"; "Properties"] ] [];
          DClass true TokenDoc.BaseToken;
          TokenDoc.namespace ]
  /\ resolve TokenDoc.namespace (tref ["BaseToken"; "Properties"])
      = TRef ["fields"; "SchemaField"; "InnerInitializedType"]
          [ tref ["Schema"] ]
  /\ metadata_entry "name" = Some (TStringLit "Token")
  /\ forallb (has_field (interface_fields TokenDoc.Schema))
       ["x"; "y"; "rotation"; "sight"; "bar1"; "bar2"; "detectionModes"] = true
  /\ lookup (interface_fields TokenDoc.Schema) "x"
      = Some (fields "NumberField"
                [ TObject [ opt "required" TTrue; opt "integer" TTrue;
                            opt "nullable" TFalse; opt "initial" (TNumberLit 0);
                            opt "label" (TStringLit "XCoord") ] ])
  /\ lookup (interface_fields TokenDoc.Schema) "y"
      = Some (fields "NumberField"
                [ TObject [ opt "required" TTrue; opt "integer" TTrue;
                            opt "nullable" TFalse; opt "initial" (TNumberLit 0);
                            opt "label" (TStringLit "YCoord") ] ])
  /\ lookup (interface_fields TokenDoc.Schema) "rotation"
      = Some (fields "AngleField" [])
  /\ lookup (interface_fields TokenDoc.Schema) "sight"
      = Some (fields "SchemaField" [ TObject TokenDoc.sight_fields ])
  /\ map prop_name TokenDoc.sight_fields
      = [ "enabled"; "range"; "angle"; "visionMode"; "color"; "attenuation";
          "brightness"; "saturation"; "contrast" ]
  /\ option_at 0 (interface_fields TokenDoc.Schema) "bar1" "attribute"
      = Some (fields "StringField" [ TokenDoc.bar_attribute_options ])
  /\ option_at 0 (interface_fields TokenDoc.Schema) "bar2" "attribute"
      = Some (fields "StringField" [ TokenDoc.bar_attribute_options ])
  /\ lookup (interface_fields TokenDoc.Schema) "detectionModes"
      = Some (fields "ArrayField"
                [ fields "SchemaField" [ TObject TokenDoc.detection_mode_fields ];
                  TObject [ opt "validate" (TFunction [] TVoid) ] ])
  /\ map prop_name TokenDoc.detection_mode_fields = [ "id"; "enabled"; "range" ]
  /\ lookup (interface_fields TokenDoc.Schema) "actorId"
      = Some (fields "ForeignDocumentField"
                [ TTypeof ["documents"; "BaseActor"];
                  TObject [ opt "idOnly" TTrue ] ])
  /\ find_member CardDoc.Card "source" = Some CardDoc.source
  /\ (m_kind CardDoc.source, m_type CardDoc.source)
      = (Getter,
         Some (TUnion [ TRef ["InstanceType"]
                          [ TRef ["ConfiguredDocumentClassForName"]
                              [ TStringLit "Cards" ] ];
                        TUndefined; TNull ]))
  /\ parent_document TokenDoc.BaseToken
      = Some (TUnion [ TRef ["InstanceType"]
                         [ TRef ["ConfiguredDocumentClass"]
                             [ TTypeof ["documents"; "BaseScene"] ] ];
                       TNull ]).
Proof. repeat split; reflexivity. Qed.

(** ** Errors and invariants *)

(** C5: thrown errors appear in documentation only.  The documentation of
    [#validateDetectionModes] carries the tag [@throws An error if the array
    is invalid], and it is the only member of the repository whose
    documentation has such a tag; no member's code raises or handles an
    error, since no member has code; and no statement of the repository
    raises or handles one. *)
Theorem thrown_errors_only_documented :
  documented_throws TokenDoc.validateDetectionModes
    = [ "An error if the array is invalid" ]
  /\ filter documents_throw (members repository)
      = [ TokenDoc.validateDetectionModes ]
  /\ Forall (fun m => member_code m = []
                     /\ existsb raises (member_code m) = false
                     /\ existsb handles (member_code m) = false)
       (members repository)
  /\ existsb raises (executable_code repository) = false
  /\ existsb handles (executable_code repository) = false.
Proof.
  split; [reflexivity |].
  split; [reflexivity |].
  split.
  { apply Forall_forall. intros m Hin.
    assert (Hm : signature_only m = true).
    { assert (H : forallb signature_only (members repository) = true)
        by reflexivity.
      rewrite forallb_forall in H. now apply H. }
    rewrite (signature_only_no_code m Hm). repeat split. }
  split; apply no_code_no_statement, repository_no_code.
Qed.

(** C6: the Token schema declares its invariants as option types: [min: 0] on
    the sight range, [min: -1] and [max: 1] on brightness, saturation and
    contrast, [positive: true] on width and height, [choices] on displayName,
    disposition and displayBars, and a [validate] hook of type [() => void] on
    detectionModes.  The repository has no executable statement, so none of
    it checks any of them, whatever test [checks] recognises a check. *)
Theorem schema_invariants_declared_not_checked :
  option_at 0 TokenDoc.sight_fields "range" "min" = Some (TNumberLit 0)
  /\ Forall (fun f => option_at 0 TokenDoc.sight_fields f "min"
                       = Some (TNumberLit (-1))
                     /\ option_at 0 TokenDoc.sight_fields f "max"
                       = Some (TNumberLit 1))
       [ "brightness"; "saturation"; "contrast" ]
  /\ Forall (fun f => option_at 0 (interface_fields TokenDoc.Schema) f "positive"
                       = Some TTrue)
       [ "width"; "height" ]
  /\ option_at 0 (interface_fields TokenDoc.Schema) "displayName" "choices"
      = Some (TArray (tref ["CONST"; "TOKEN_DISPLAY_MODES"]))
  /\ option_at 0 (interface_fields TokenDoc.Schema) "disposition" "choices"
      = Some (TArray (tref ["CONST"; "TOKEN_DISPOSITIONS"]))
  /\ option_at 0 (interface_fields TokenDoc.Schema) "displayBars" "choices"
      = Some (TArray (tref ["CONST"; "TOKEN_DISPLAY_MODES"]))
  /\ option_at 1 (interface_fields TokenDoc.Schema) "detectionModes" "validate"
      = Some (TFunction [] TVoid)
  /\ lookup (interface_fields TokenDoc.Schema) "sight"
      = Some (fields "SchemaField" [ TObject TokenDoc.sight_fields ])
  /\ executable_code repository = []
  /\ (forall checks : Stmt -> bool,
        existsb checks (executable_code repository) = false).
Proof.
  split; [reflexivity |].
  split; [repeat constructor |].
  split; [repeat constructor |].
  do 5 (split; [reflexivity |]).
  split; [apply repository_no_code |].
  apply no_code_no_statement, repository_no_code.
Qed.

(** ** The exported surface *)

(** C7: what the repository makes visible is the default export [BaseToken]
    and the global names [TokenSightData], [TokenDetectionMode], [TokenData],
    [TokenBarData] and [Card], and nothing else.  Each of these names stands
    for declarations that only describe: four type aliases, the interface, the
    ambient class and the ambient namespace [BaseToken], and the class [Card]
    of a [declare global] block.  No function, variable or statement is
    declared at any depth, and the repository has no executable code: nothing
    that would read or write a format or serve a command line. *)
Theorem external_interface_is_type_surface :
  exports repository
    = [ Global "TokenSightData"; Global "TokenDetectionMode";
        Global "TokenData"; Global "TokenBarData";
        ExportDefault "BaseToken"; Global "Card" ]
  /\ Forall (fun f => Forall (fun e => export_describes f e = true)
                        (file_exports f)) repository
  /\ exported_decls TokenDoc.token_mjs_d_ts (ExportDefault "BaseToken")
      = [ TokenDoc.BaseToken_interface; DClass true TokenDoc.BaseToken;
          TokenDoc.namespace ]
  /\ flat_map (exported_decls TokenDoc.token_mjs_d_ts)
       [ Global "TokenSightData"; Global "TokenDetectionMode";
         Global "TokenData"; Global "TokenBarData" ]
      = [ TokenDoc.TokenSightData; TokenDoc.TokenDetectionMode;
          TokenDoc.TokenData; TokenDoc.TokenBarData ]
  /\ exported_decls CardDoc.card_file (Global "Card")
      = [ DClass false CardDoc.Card ]
  /\ existsb is_value_declaration (all_declarations repository) = false
  /\ executable_code repository = [].
Proof.
  split; [reflexivity |].
  split; [repeat constructor |].
  do 4 (split; [reflexivity |]).
  apply repository_no_code.
Qed.

(** ** Equal declarations *)

Section Acceptance.

(** What the type expressions defined outside the repository admit. *)
Variable Value : Type.
Variable meaning : TsType -> Value -> Prop.

(** C8: [BaseToken.ConstructorData] is defined as [UpdateData].  The [data]
    parameter of the constructor has the former type and that of [#canUpdate]
    the latter; both resolve to
    [fields.SchemaField.InnerAssignmentType<Schema>]; so a value is accepted
    as constructor data exactly when it is accepted as update data, under
    either spelling of the names (inside the namespace and qualified by it),
    whatever the types outside the repository admit. *)
Theorem constructor_data_is_update_data :
  alias_of (namespace_body TokenDoc.namespace) "ConstructorData"
    = Some (tref ["UpdateData"])
  /\ data_parameter TokenDoc.constructor
      = Some (tref ["BaseToken"; "ConstructorData"])
  /\ data_parameter TokenDoc.canUpdate
      = Some (tref ["BaseToken"; "UpdateData"])
  /\ resolve TokenDoc.namespace (tref ["BaseToken"; "ConstructorData"])
      = TRef ["fields"; "SchemaField"; "InnerAssignmentType"] [tref ["Schema"]]
  /\ resolve TokenDoc.namespace (tref ["BaseToken"; "UpdateData"])
      = TRef ["fields"; "SchemaField"; "InnerAssignmentType"] [tref ["Schema"]]
  /\ (forall v : Value,
        accepts meaning TokenDoc.namespace (tref ["ConstructorData"]) v
        <-> accepts meaning TokenDoc.namespace (tref ["UpdateData"]) v)
  /\ (forall v : Value,
        accepts meaning TokenDoc.namespace
          (tref ["BaseToken"; "ConstructorData"]) v
        <-> accepts meaning TokenDoc.namespace
              (tref ["BaseToken"; "UpdateData"]) v).
Proof.
  do 5 (split; [reflexivity |]).
  split.
  - apply (alias_accepts_same meaning TokenDoc.namespace
             "ConstructorData" "UpdateData" 6); reflexivity.
  - intros v. unfold accepts.
    change (resolve TokenDoc.namespace (tref ["BaseToken"; "ConstructorData"]))
      with (resolve TokenDoc.namespace (tref ["BaseToken"; "UpdateData"])).
    reflexivity.
Qed.

End Acceptance.

(** C9: [Card.play] and [Card.discard] are declared with the signature of
    [Card.pass]: a parameter [to] that is a Cards document, an optional
    parameter [options] of type [Cards.PassOptions | undefined], and a result
    [Promise] of a Card or [undefined]; the three are instance methods with
    the same modifiers, so they differ in name and documentation only. *)
Theorem play_and_discard_have_signature_of_pass :
  find_member CardDoc.Card "pass" = Some CardDoc.pass
  /\ find_member CardDoc.Card "play" = Some CardDoc.play
  /\ find_member CardDoc.Card "discard" = Some CardDoc.discard
  /\ signature CardDoc.play = signature CardDoc.pass
  /\ signature CardDoc.discard = signature CardDoc.pass
  /\ signature CardDoc.pass
      = ([ MkParam (BName "to") false
             (TRef ["InstanceType"]
                [ TRef ["ConfiguredDocumentClassForName"] [ TStringLit "Cards" ] ]);
           MkParam (BName "options") true
             (TUnion [ tref ["Cards"; "PassOptions"]; TUndefined ]) ],
         Some (TRef ["Promise"]
                 [ TUnion [ TRef ["InstanceType"]
                              [ TRef ["ConfiguredDocumentClassForName"]
                                  [ TStringLit "Card" ] ];
                            TUndefined ] ]))
  /\ Forall (fun m => (m_kind m, m_static m, m_override m)
                     = (Method, false, false)
                     /\ m_body m = None)
       [ CardDoc.pass; CardDoc.play; CardDoc.discard ].
Proof.
  do 6 (split; [reflexivity |]).
  repeat constructor.
Qed.

(** C10: [Card.recall] is declared to resolve to a Card, a type that does not
    include [undefined]; each of [Card.flip], [Card.pass], [Card.play],
    [Card.discard] and [Card.toMessage] is declared to resolve to a union that
    includes [undefined].  These six are the members of [Card] that return a
    [Promise]. *)
Theorem recall_resolves_to_card :
  resolves_to CardDoc.recall
    = Some (TRef ["InstanceType"]
              [ TRef ["ConfiguredDocumentClassForName"] [ TStringLit "Card" ] ])
  /\ option_map includes_undefined (resolves_to CardDoc.recall) = Some false
  /\ Forall (fun m => option_map includes_undefined (resolves_to m) = Some true)
       [ CardDoc.flip; CardDoc.pass; CardDoc.play; CardDoc.discard;
         CardDoc.toMessage ]
  /\ filter (fun m => is_some (resolves_to m)) (c_members CardDoc.Card)
      = [ CardDoc.flip; CardDoc.pass; CardDoc.play; CardDoc.discard;
          CardDoc.recall; CardDoc.toMessage ].
Proof.
  split; [reflexivity |].
  split; [reflexivity |].
  split; [repeat constructor | reflexivity].
Qed.

(** ** The readers tell code from description *)

(** Outside [declare global], the [extends] clause of [Card] would be an
    expression to evaluate; inside, it is not. *)
Example Card_outside_declare_global :
  decl_code false (DClass false CardDoc.Card)
    = [ SExpr (ECall (EName ["ClientDocumentMixin"])
                 [ EName ["foundry"; "documents"; "BaseCard"] ]) ]
  /\ declaration_only false (DClass false CardDoc.Card) = false
  /\ decl_code false CardDoc.global = []
  /\ declaration_only false CardDoc.global = true.
Proof. repeat split; reflexivity. Qed.

(** Had [#validateDetectionModes] a body that throws, every reader would
    report it. *)
Example body_is_reported :
  let body := [ SThrow (ENew (EName ["Error"]) [ EString "invalid" ]) ] in
  let m :=
    {| m_doc := m_doc TokenDoc.validateDetectionModes;
       m_static := true; m_override := false; m_kind := Method;
       m_name := "#validateDetectionModes";
       m_params := m_params TokenDoc.validateDetectionModes;
       m_type := Some TVoid; m_body := Some body; m_init := None |} in
  let f := MkFile None [ DClass true (MkClass None "BaseToken" None [ m ]) ] in
  signature_only m = false
  /\ member_code m = body
  /\ executable_code [ f ] = body
  /\ existsb raises (executable_code [ f ]) = true
  /\ implements [ f ] "#validateDetectionModes" = true
  /\ forallb (declaration_only false) (declarations [ f ]) = false.
Proof. repeat split; reflexivity. Qed.

(** A file without import and export declares global names; a module keeps
    them local. *)
Example script_declares_globals :
  file_exports (MkFile None [ TokenDoc.TokenData ]) = [ Global "TokenData" ]
  /\ file_exports
       (MkFile None [ TokenDoc.TokenData; DExportDefault "BaseToken" ])
     = [ ExportDefault "BaseToken" ].
Proof. split; reflexivity. Qed.

(** * Consistency of the declarations *)

(** ** Names are declared once *)

Lemma mem_In (x : string) (l : list string) : mem x l = true <-> In x l.
Proof.
  unfold mem. rewrite existsb_exists. split.
  - intros [y [Hin Heq]]. apply String.eqb_eq in Heq. now subst.
  - intros Hin. exists x. split; [assumption | apply String.eqb_refl].
Qed.

Lemma nodupb_NoDup (l : list string) : nodupb l = true -> NoDup l.
Proof.
  induction l as [| x l IH]; simpl; intros H.
  - constructor.
  - apply andb_prop in H as [Hx Hl]. constructor.
    + intros Hin. apply mem_In in Hin. rewrite Hin in Hx. discriminate.
    + now apply IH.
Qed.

(** In a list whose keys are distinct, looking up the key of an element finds
    that element. *)
Lemma find_by_key {A : Type} (key : A -> string) (l : list A) (a : A) :
  NoDup (map key l) -> In a l ->
  find (fun b => String.eqb (key b) (key a)) l = Some a.
Proof.
  induction l as [| b l IH]; simpl; intros Hnd Hin.
  - contradiction.
  - inversion Hnd as [| ? ? Hnotin Hnd']; subst.
    destruct Hin as [-> | Hin].
    + now rewrite String.eqb_refl.
    + destruct (String.eqb (key b) (key a)) eqn:E.
      * apply String.eqb_eq in E. exfalso. apply Hnotin.
        rewrite E. now apply in_map.
      * now apply IH.
Qed.

(** Every member of a class of the repository is the one that its name finds:
    no class declares a name twice (no overloads, no accessor pairs), so a
    name identifies one signature. *)
Theorem declared_member_is_found (c : ClassDecl) (m : Member) :
  In c (classes repository) -> In m (c_members c) ->
  find_member c (m_name m) = Some m.
Proof.
  intros Hc Hm. unfold find_member.
  apply (find_by_key m_name); [| assumption].
  apply nodupb_NoDup.
  destruct Hc as [<- | [<- | []]]; reflexivity.
Qed.

Lemma declared_member_is_found_witness :
  find_member TokenDoc.BaseToken "shimData" = Some TokenDoc.shimData.
Proof.
  apply (declared_member_is_found TokenDoc.BaseToken TokenDoc.shimData).
  - left; reflexivity.
  - simpl; tauto.
Defined.

(** Every field of the Token schema, of the [sight] sub-schema and of the
    detection mode sub-schema is the one that its name finds: the field names
    of each schema are distinct. *)
Theorem declared_field_is_found (ms : list PropSig) (p : PropSig) :
  In ms [ interface_fields TokenDoc.Schema; TokenDoc.sight_fields;
          TokenDoc.detection_mode_fields ] ->
  In p ms ->
  find (fun p' => String.eqb (prop_name p') (prop_name p)) ms = Some p
  /\ lookup ms (prop_name p) = Some (prop_type p).
Proof.
  intros Hms Hp.
  assert (H : find (fun p' => String.eqb (prop_name p') (prop_name p)) ms
              = Some p).
  { apply (find_by_key prop_name); [| assumption].
    apply nodupb_NoDup.
    destruct Hms as [<- | [<- | [<- | []]]]; reflexivity. }
  split; [assumption |].
  unfold lookup. now rewrite H.
Qed.

Lemma declared_field_is_found_witness :
  find (fun p' => String.eqb (prop_name p') "range") TokenDoc.sight_fields
    = Some (the_field TokenDoc.sight_fields "range")
  /\ lookup TokenDoc.sight_fields "range"
     = Some (prop_type (the_field TokenDoc.sight_fields "range")).
Proof.
  apply (declared_field_is_found TokenDoc.sight_fields
           (the_field TokenDoc.sight_fields "range")).
  - right; left; reflexivity.
  - simpl; tauto.
Defined.

(** ** Declared defaults *)

Lemma Qis_integer_spec (q : Q) :
  Qis_integer q = true -> exists z : Z, (q == inject_Z z)%Q.
Proof.
  unfold Qis_integer. intros H. apply Pos.eqb_eq in H.
  exists (Qnum (Qred q)).
  rewrite <- (Qred_correct q) at 1.
  destruct (Qred q) as [n d]; simpl in *. subst d. reflexivity.
Qed.

Lemma bounds_consistent_spec (p : PropSig) (i : Q) :
  bounds_consistent p = true ->
  numeric (option_of p "initial") = Some i ->
  (forall lo, numeric (option_of p "min") = Some lo -> (lo <= i)%Q)
  /\ (forall hi, numeric (option_of p "max") = Some hi -> (i <= hi)%Q)
  /\ (is_true (option_of p "positive") = true -> (0 < i)%Q)
  /\ (is_true (option_of p "integer") = true ->
      exists z : Z, (i == inject_Z z)%Q).
Proof.
  unfold bounds_consistent. intros H Hi. rewrite Hi in H.
  apply andb_prop in H as [H _].
  apply andb_prop in H as [H Hint].
  apply andb_prop in H as [H Hpos].
  apply andb_prop in H as [Hlo Hhi].
  repeat split.
  - intros lo E. unfold lower_ok in Hlo. rewrite E in Hlo.
    now apply Qle_bool_iff.
  - intros hi E. unfold upper_ok in Hhi. rewrite E in Hhi.
    now apply Qle_bool_iff.
  - intros E. unfold positive_ok in Hpos. rewrite E in Hpos.
    apply andb_prop in Hpos as [Hle Hne].
    apply Qle_bool_iff in Hle. apply negb_true_iff in Hne.
    apply Qle_lteq in Hle as [Hlt | Heq]; [assumption |].
    apply Qeq_bool_iff in Heq. rewrite Heq in Hne. discriminate.
  - intros E. unfold integer_ok in Hint. rewrite E in Hint.
    now apply Qis_integer_spec.
Qed.

(** Every field of the Token schema, at any depth, that declares a numeric
    [initial] value declares one that meets the field's own constraints: it is
    at least [min], at most [max], positive under [positive: true] and whole
    under [integer: true]. *)
Theorem initial_values_within_bounds (p : PropSig) (i : Q) :
  In p token_fields ->
  numeric (option_of p "initial") = Some i ->
  (forall lo, numeric (option_of p "min") = Some lo -> (lo <= i)%Q)
  /\ (forall hi, numeric (option_of p "max") = Some hi -> (i <= hi)%Q)
  /\ (is_true (option_of p "positive") = true -> (0 < i)%Q)
  /\ (is_true (option_of p "integer") = true ->
      exists z : Z, (i == inject_Z z)%Q).
Proof.
  intros Hin. apply bounds_consistent_spec.
  assert (H : forallb bounds_consistent token_fields = true)
    by (vm_compute; reflexivity).
  rewrite forallb_forall in H. now apply H.
Qed.

Lemma initial_values_within_bounds_witness :
  numeric (option_of (the_field TokenDoc.sight_fields "brightness") "initial")
    = Some 0%Q
  /\ (-1 <= 0)%Q /\ (0 <= 1)%Q.
Proof.
  split; [reflexivity |].
  destruct (initial_values_within_bounds
              (the_field TokenDoc.sight_fields "brightness") 0%Q)
    as [Hlo [Hhi _]].
  - simpl; tauto.
  - reflexivity.
  - split; [apply Hlo | apply Hhi]; reflexivity.
Defined.

Lemma same_strings_eq (a b : list string) : same_strings a b = true -> a = b.
Proof.
  unfold same_strings. destruct (list_eq_dec string_dec a b); easy.
Qed.

(** Every field of the Token schema, at any depth, documents exactly one
    default value; and where the field declares its [initial] option as a
    literal (a number, a string, a boolean) or as [typeof] a constant, the
    documented default is that very text between backquotes. *)
Theorem documented_default_is_declared_initial (p : PropSig) :
  In p token_fields ->
  length (documented_defaults p) = 1
  /\ forall s, initial_text p = Some s ->
               documented_defaults p = [ "`" ++ s ++ "`" ].
Proof.
  intros Hin.
  assert (H : forallb default_agrees token_fields = true)
    by (vm_compute; reflexivity).
  rewrite forallb_forall in H. specialize (H p Hin).
  unfold default_agrees in H. apply andb_prop in H as [Hlen Hs].
  split.
  - now apply PeanoNat.Nat.eqb_eq.
  - intros s E. rewrite E in Hs. now apply same_strings_eq.
Qed.

Lemma documented_default_is_declared_initial_witness :
  initial_text (the_field TokenDoc.sight_fields "attenuation") = Some "0.1"
  /\ documented_defaults (the_field TokenDoc.sight_fields "attenuation")
     = [ "`0.1`" ].
Proof.
  split; [reflexivity |].
  destruct (documented_default_is_declared_initial
              (the_field TokenDoc.sight_fields "attenuation")) as [_ H].
  - simpl; tauto.
  - apply (H "0.1"). reflexivity.
Defined.

(** ** Aliases *)

(** Every type alias of the namespace [BaseToken] resolves within the fuel to
    a type that is no longer an alias of the namespace (the aliases do not
    refer to one another in a cycle), and the qualified name [BaseToken.X]
    resolves as [X] does.  Apart from [Metadata], each alias resolves to a type
    of [fields.SchemaField] applied to the one interface [Schema] of the
    namespace: the constructor data, the update data, the properties and the
    stored source all derive from that schema. *)
Theorem namespace_aliases_settle (x : string) (t : TsType) :
  alias_of (namespace_body TokenDoc.namespace) x = Some t ->
  settled TokenDoc.namespace (resolve TokenDoc.namespace (tref [x])) = true
  /\ resolve TokenDoc.namespace (tref ["BaseToken"; x])
     = resolve TokenDoc.namespace (tref [x])
  /\ (x <> "Metadata" ->
      exists q, resolve TokenDoc.namespace (tref [x])
                = TRef ("fields" :: "SchemaField" :: q) [ tref ["Schema"] ])
  /\ named "Schema" (namespace_body TokenDoc.namespace) = [ TokenDoc.Schema ].
Proof.
  unfold alias_of. intros H.
  destruct (find _ _) as [d |] eqn:E; [| discriminate].
  apply find_some in E as [Hin Hx].
  simpl in Hin.
  destruct Hin as [<- | [<- | [<- | [<- | [<- | [<- | [<- | []]]]]]]];
    cbv beta iota delta
      [TokenDoc.Metadata TokenDoc.SchemaField TokenDoc.ConstructorData
       TokenDoc.UpdateData TokenDoc.Properties TokenDoc.Source TokenDoc.Schema]
      in Hx;
    try discriminate; apply String.eqb_eq in Hx; subst x;
    (split; [reflexivity |]); (split; [reflexivity |]);
    (split; [| reflexivity]); intros Hne.
  - now contradiction Hne.
  - now exists [].
  - now exists ["InnerAssignmentType"].
  - now exists ["InnerAssignmentType"].
  - now exists ["InnerInitializedType"].
  - now exists ["InnerPersistedType"].
Qed.

Lemma namespace_aliases_settle_witness :
  settled TokenDoc.namespace (resolve TokenDoc.namespace (tref ["Source"]))
    = true
  /\ resolve TokenDoc.namespace (tref ["BaseToken"; "Source"])
     = resolve TokenDoc.namespace (tref ["Source"])
  /\ ("Source" <> "Metadata" ->
      exists q, resolve TokenDoc.namespace (tref ["Source"])
                = TRef ("fields" :: "SchemaField" :: q) [ tref ["Schema"] ])
  /\ named "Schema" (namespace_body TokenDoc.namespace) = [ TokenDoc.Schema ].
Proof.
  apply (namespace_aliases_settle "Source"
           (TRef ["fields"; "SchemaField"; "InnerPersistedType"]
              [ tref ["Schema"] ])).
  reflexivity.
Defined.

(** Every global alias of the Token file starts at [BaseToken.Properties] and
    indexes it only by fields the schema has: [TokenSightData] selects the
    field [sight], [TokenBarData] the field [bar1], [TokenData] the whole
    schema, and [TokenDetectionMode] the element of the array field
    [detectionModes].  The parameter of [#validateDetectionModes] is an array
    of [TokenDetectionMode], so the validator is typed by what the field it
    validates holds. *)
Theorem global_aliases_select_fields :
  Forall (fun d => is_some (selects d) = true) (global_body TokenDoc.global)
  /\ selects TokenDoc.TokenSightData
     = lookup (interface_fields TokenDoc.Schema) "sight"
  /\ selects TokenDoc.TokenBarData
     = lookup (interface_fields TokenDoc.Schema) "bar1"
  /\ selects TokenDoc.TokenData = Some (TObject (interface_fields TokenDoc.Schema))
  /\ selects TokenDoc.TokenDetectionMode
     = match lookup (interface_fields TokenDoc.Schema) "detectionModes" with
       | Some t => targ 0 t
       | None => None
       end
  /\ selects TokenDoc.TokenDetectionMode
     = Some (fields "SchemaField" [ TObject TokenDoc.detection_mode_fields ])
  /\ map param_type (m_params TokenDoc.validateDetectionModes)
     = [ TArray (tref ["TokenDetectionMode"]) ]
  /\ exported_decls TokenDoc.token_mjs_d_ts (Global "TokenDetectionMode")
     = [ TokenDoc.TokenDetectionMode ].
Proof.
  split; [repeat constructor |].
  repeat split; reflexivity.
Qed.


(** ** Signatures that belong together *)

(** [#canUpdate] has the shape of the [update] permission that
    [BaseToken.Metadata] declares: the same parameter names in the same order,
    none optional, the same result [boolean], and, once the aliases of the
    namespace are resolved, the same types for [user] and [data].  Only [doc]
    differs: the permission takes any document, [#canUpdate] a [BaseToken]. *)
Theorem canUpdate_matches_update_permission :
  exists ps,
    update_permission = Some (TFunction ps TBoolean)
    /\ m_type TokenDoc.canUpdate = Some TBoolean
    /\ map param_binding ps = map param_binding (m_params TokenDoc.canUpdate)
    /\ map param_binding ps = [ BName "user"; BName "doc"; BName "data" ]
    /\ map param_optional ps = [ false; false; false ]
    /\ map param_optional (m_params TokenDoc.canUpdate) = [ false; false; false ]
    /\ resolved_parameters ps
       = [ tref ["documents"; "BaseUser"]; tref ["Document"; "Any"];
           TRef ["fields"; "SchemaField"; "InnerAssignmentType"]
             [ tref ["Schema"] ] ]
    /\ resolved_parameters (m_params TokenDoc.canUpdate)
       = [ tref ["documents"; "BaseUser"]; tref ["BaseToken"];
           TRef ["fields"; "SchemaField"; "InnerAssignmentType"]
             [ tref ["Schema"] ] ].
Proof.
  eexists. repeat split; reflexivity.
Qed.

(** The type arguments that [BaseToken] passes to [Document] agree with its
    static members: the first resolves to [fields.SchemaField] of the schema
    that [defineSchema] returns, and [metadata] is a read-only view of the
    second. *)
Theorem static_members_match_type_arguments :
  exists schema metadata parent,
    option_map h_targs (c_extends TokenDoc.BaseToken)
      = Some [ schema; metadata; parent ]
    /\ m_type TokenDoc.metadata = Some (TRef ["Readonly"] [ metadata ])
    /\ exists s,
        m_type TokenDoc.defineSchema = Some (tref ("BaseToken" :: s))
        /\ resolve TokenDoc.namespace schema = fields "SchemaField" [ tref s ]
        /\ flat_map (fun x => named x (namespace_body TokenDoc.namespace)) s
           = [ TokenDoc.Schema ].
Proof.
  do 3 eexists. split; [reflexivity |]. split; [reflexivity |].
  exists ["Schema"]. repeat split; reflexivity.
Qed.

(** A destructured parameter, wherever a member has one, is optional, binds
    exactly the property names of its object type, and each of these
    properties is an optional [boolean] that documents its default.  The
    members with such a parameter are [testUserPermission] and [shimData]. *)
Theorem destructured_parameters_are_option_bags (m : Member) (p : Param) :
  In m (members repository) -> In p (destructured m) ->
  In (m_name m) [ "testUserPermission"; "shimData" ]
  /\ param_optional p = true
  /\ exists ms, param_type p = TObject ms
                /\ map prop_name ms = bound_names p
                /\ Forall (fun q => prop_optional q = true
                                    /\ prop_type q = TBoolean
                                    /\ length (documented_defaults q) = 1) ms.
Proof.
  intros Hm Hp.
  repeat (destruct Hm as [<- | Hm]; [simpl in Hp |]); try contradiction;
    destruct Hp as [<- | []].
  - split; [simpl; tauto |]. split; [reflexivity |].
    eexists. split; [reflexivity |]. split; [reflexivity |].
    repeat constructor.
  - split; [simpl; tauto |]. split; [reflexivity |].
    eexists. split; [reflexivity |]. split; [reflexivity |].
    repeat constructor.
Qed.

Lemma destructured_parameters_are_option_bags_witness :
  In (m_name TokenDoc.shimData) [ "testUserPermission"; "shimData" ]
  /\ param_optional (nth 1 (m_params TokenDoc.shimData) (param "data" TNull))
     = true
  /\ exists ms,
      param_type (nth 1 (m_params TokenDoc.shimData) (param "data" TNull))
        = TObject ms
      /\ map prop_name ms
         = bound_names (nth 1 (m_params TokenDoc.shimData) (param "data" TNull))
      /\ Forall (fun q => prop_optional q = true
                          /\ prop_type q = TBoolean
                          /\ length (documented_defaults q) = 1) ms.
Proof.
  apply (destructured_parameters_are_option_bags TokenDoc.shimData
           (nth 1 (m_params TokenDoc.shimData) (param "data" TNull))).
  - simpl; tauto.
  - simpl; tauto.
Defined.

(** ** Enumerated fields *)

(** The fields with a [choices] option are exactly [displayName],
    [disposition] and [displayBars].  For each, one enumeration [e] of [CONST] is the element
    type of [choices], the initialized type and the persisted type; the
    assignment type adds exactly [null] and [undefined] to it; [initial] is
    [typeof] a member of [e]; the field is required; and its validation
    message names [e]. *)
Theorem choice_fields_are_consistent (p : PropSig) :
  In p choice_fields ->
  map prop_name choice_fields = [ "displayName"; "disposition"; "displayBars" ]
  /\ In (prop_name p) [ "displayName"; "disposition"; "displayBars" ]
  /\ exists e k,
      option_of p "choices" = Some (TArray (tref e))
      /\ option_of p "initial" = Some (TTypeof (e ++ [k])%list)
      /\ option_of p "required" = Some TTrue
      /\ option_of p "validationError"
         = Some (TStringLit ("must be a value in " ++ String.concat "." e))
      /\ map (fun i => targ i (prop_type p)) [1; 2; 3]
         = [ Some (TUnion [tref e; TNull; TUndefined]);
             Some (tref e); Some (tref e) ]
      /\ hd_error e = Some "CONST".
Proof.
  intros Hin.
  assert (E : choice_fields
              = [ the_field TokenDoc.Schema_fields "displayName";
                  the_field TokenDoc.Schema_fields "disposition";
                  the_field TokenDoc.Schema_fields "displayBars" ])
    by (vm_compute; reflexivity).
  rewrite E in Hin.
  split; [rewrite E; reflexivity |].
  destruct Hin as [<- | [<- | [<- | []]]].
  - split; [simpl; tauto |].
    exists ["CONST"; "TOKEN_DISPLAY_MODES"], "NONE". repeat split; reflexivity.
  - split; [simpl; tauto |].
    exists ["CONST"; "TOKEN_DISPOSITIONS"], "HOSTILE".
    repeat split; reflexivity.
  - split; [simpl; tauto |].
    exists ["CONST"; "TOKEN_DISPLAY_MODES"], "NONE". repeat split; reflexivity.
Qed.

Lemma choice_fields_are_consistent_witness :
  map prop_name choice_fields = [ "displayName"; "disposition"; "displayBars" ]
  /\ In (prop_name (the_field TokenDoc.Schema_fields "disposition"))
       [ "displayName"; "disposition"; "displayBars" ]
  /\ exists e k,
      option_of (the_field TokenDoc.Schema_fields "disposition") "choices"
        = Some (TArray (tref e))
      /\ option_of (the_field TokenDoc.Schema_fields "disposition") "initial"
         = Some (TTypeof (e ++ [k])%list)
      /\ option_of (the_field TokenDoc.Schema_fields "disposition") "required"
         = Some TTrue
      /\ option_of (the_field TokenDoc.Schema_fields "disposition")
           "validationError"
         = Some (TStringLit ("must be a value in " ++ String.concat "." e))
      /\ map (fun i => targ i (prop_type
                                 (the_field TokenDoc.Schema_fields "disposition")))
           [1; 2; 3]
         = [ Some (TUnion [tref e; TNull; TUndefined]);
             Some (tref e); Some (tref e) ]
      /\ hd_error e = Some "CONST".
Proof.
  apply (choice_fields_are_consistent
           (the_field TokenDoc.Schema_fields "disposition")).
  right; left; reflexivity.
Defined.

(** ** Imports and accessors *)

(** Every name that a file of the repository imports is referred to by a
    declaration of that file, and no file imports a name twice: there is no
    unused and no clashing import. *)
Theorem imports_are_used (f : SourceFile) (x : string) :
  In f repository -> In x (imported f) ->
  In x (referred f) /\ NoDup (imported f).
Proof.
  intros Hf Hx. split.
  - apply mem_In.
    assert (H : forallb (fun x => mem x (referred f)) (imported f) = true)
      by (destruct Hf as [<- | [<- | []]]; vm_compute; reflexivity).
    rewrite forallb_forall in H. now apply H.
  - apply nodupb_NoDup.
    destruct Hf as [<- | [<- | []]]; vm_compute; reflexivity.
Qed.

Lemma imports_are_used_witness :
  In "DocumentMetadata" (referred TokenDoc.token_mjs_d_ts)
  /\ NoDup (imported TokenDoc.token_mjs_d_ts).
Proof.
  apply (imports_are_used TokenDoc.token_mjs_d_ts "DocumentMetadata").
  - left; reflexivity.
  - simpl; tauto.
Defined.

(** Every accessor of the repository is one of the eight getters of [Card]:
    an instance member without parameters, with a declared type and without
    body.  No setter is declared, so each of them is read-only. *)
Theorem accessors_are_read_only (m : Member) :
  In m (members repository) -> m_kind m = Getter ->
  In m (c_members CardDoc.Card)
  /\ In (m_name m) [ "currentFace"; "img"; "name"; "source"; "isHome";
                     "showFace"; "hasNextFace"; "hasPreviousFace" ]
  /\ m_static m = false
  /\ m_params m = []
  /\ is_some (m_type m) = true
  /\ m_body m = None
  /\ existsb (is_kind Setter) (members repository) = false.
Proof.
  intros Hm Hk.
  repeat (destruct Hm as [<- | Hm]; [try discriminate Hk |]);
    try contradiction;
    (split; [simpl; tauto |]); (split; [simpl; tauto |]);
    repeat split; reflexivity.
Qed.

Lemma accessors_are_read_only_witness :
  In CardDoc.isHome (c_members CardDoc.Card)
  /\ In (m_name CardDoc.isHome)
       [ "currentFace"; "img"; "name"; "source"; "isHome";
         "showFace"; "hasNextFace"; "hasPreviousFace" ]
  /\ m_static CardDoc.isHome = false
  /\ m_params CardDoc.isHome = []
  /\ is_some (m_type CardDoc.isHome) = true
  /\ m_body CardDoc.isHome = None
  /\ existsb (is_kind Setter) (members repository) = false.
Proof.
  apply (accessors_are_read_only CardDoc.isHome).
  - simpl; tauto.
  - reflexivity.
Defined.
